(** * pwru: the kprobe program [bpf/kprobe_pwru.c]

    A shallow embedding of the BPF program that pwru attaches to kernel
    functions taking a [struct sk_buff *], and the properties of its filter,
    its extractors and its event emission.

    Integers are [Z] with the wrap-around of their C type written out,
    kernel memory is a partial map from addresses to bytes, and the BPF
    helpers the program calls are fields of an environment record. *)

From Stdlib Require Import ZArith List Bool Lia.
From coqutil Require Import Byte Word.LittleEndianList.
Import ListNotations.
Local Open Scope Z_scope.

(** ** Machine integers and kernel memory *)

Module Mach.

Definition wrap (width x : Z) : Z := x mod 2 ^ width.

(** Pointer arithmetic on a 64-bit target. *)
Definition ptr_add (p off : Z) : Z := wrap 64 (p + off).

(** Kernel memory as a probe sees it: an address either holds a byte or
    faults. *)
Definition memory := Z -> option byte.

Fixpoint load_bytes (m : memory) (addr : Z) (n : nat) : option (list byte) :=
  match n with
  | O => Some []
  | S k =>
      match m addr, load_bytes m (addr + 1) k with
      | Some b, Some bs => Some (b :: bs)
      | _, _ => None
      end
  end.

Definition zeroes (n : nat) : list byte := repeat Byte.x00 n.

Definition EFAULT : Z := 14.

(** [bpf_probe_read(dst, size, src)]: the return code and the contents of
    [dst] after the call.  When any byte of the source range faults the
    helper returns [-EFAULT] and fills [dst] with zeroes. *)
Definition bpf_probe_read (m : memory) (size : nat) (src : Z) : Z * list byte :=
  match load_bytes m src size with
  | Some bs => (0, bs)
  | None => (- EFAULT, zeroes size)
  end.

(** [bpf_core_read] is [bpf_probe_read] on a relocated field address. *)
Definition bpf_core_read := bpf_probe_read.

(** The value of a scalar of [size] bytes (x86-64, little endian) after a
    probe read into it. *)
Definition read_scalar (m : memory) (size : nat) (src : Z) : Z :=
  le_combine (snd (bpf_probe_read m size src)).

(** A field of [len] bytes at byte offset [off] of a struct copied out of
    memory. *)
Definition field (off : Z) (len : nat) (bs : list byte) : Z :=
  le_combine (firstn len (skipn (Z.to_nat off) bs)).

(** Memory built from a list of (base address, contents) regions; the
    first region holding an address wins. *)
Fixpoint region_get (base : Z) (bs : list byte) (a : Z) : option byte :=
  match bs with
  | [] => None
  | b :: r => if a =? base then Some b else region_get (base + 1) r a
  end.

Fixpoint mem_of (regions : list (Z * list byte)) : memory :=
  fun a =>
    match regions with
    | [] => None
    | (base, bs) :: r =>
        match region_get base bs a with
        | Some b => Some b
        | None => mem_of r a
        end
    end.

End Mach.
Import Mach.

(** ** Kernel types the program reads through *)

(** Byte offsets of the fields of [struct sk_buff] and [struct net_device]
    the program reads.  They are fixed by [vmlinux.h] at build time, or
    relocated at load time under CO-RE, so they are a parameter here. *)
Record kernel_layout := {
  sk_buff_mark : Z;
  sk_buff_len : Z;
  sk_buff_protocol : Z;
  sk_buff_dev : Z;
  sk_buff_head : Z;
  sk_buff_network_header : Z;
  sk_buff_transport_header : Z;
  net_device_ifindex : Z;
  net_device_mtu : Z
}.

(** Modelled from the spec: [struct iphdr], [struct tcphdr] and
    [struct udphdr] are declared in [vmlinux.h], which is not part of the
    sources at hand.  Their layout is the wire format: the IPv4 header is 20
    bytes with the protocol at byte 9, the source address at 12 and the
    destination address at 16; TCP (20 bytes) and UDP (8 bytes) both start
    with the source port at byte 0 and the destination port at byte 2. *)
Module Hdr.
Definition sizeof_iphdr : nat := 20.
Definition iphdr_protocol : Z := 9.
Definition iphdr_saddr : Z := 12.
Definition iphdr_daddr : Z := 16.
Definition sizeof_tcphdr : nat := 20.
Definition tcphdr_source : Z := 0.
Definition tcphdr_dest : Z := 2.
Definition sizeof_udphdr : nat := 8.
Definition udphdr_source : Z := 0.
Definition udphdr_dest : Z := 2.
End Hdr.

Definition IPPROTO_TCP : Z := 6.
Definition IPPROTO_UDP : Z := 17.

(** [struct pt_regs], the registers the [PT_REGS_*] macros name. *)
Record pt_regs := {
  di : Z; si : Z; dx : Z; cx : Z; r8 : Z;
  sp : Z; bp : Z; ax : Z; ip : Z
}.

Definition PT_REGS_PARM1 (x : pt_regs) : Z := di x.
Definition PT_REGS_PARM2 (x : pt_regs) : Z := si x.
Definition PT_REGS_PARM3 (x : pt_regs) : Z := dx x.
Definition PT_REGS_PARM4 (x : pt_regs) : Z := cx x.
Definition PT_REGS_PARM5 (x : pt_regs) : Z := r8 x.
Definition PT_REGS_IP (x : pt_regs) : Z := ip x.

(** ** The program's own types *)

Record skb_meta := {
  meta_mark : Z;
  meta_ifindex : Z;
  meta_len : Z;
  meta_mtu : Z;
  meta_protocol : Z;
  meta_pad : Z
}.

Record tuple := {
  tuple_saddr : Z;
  tuple_daddr : Z;
  tuple_sport : Z;
  tuple_dport : Z;
  tuple_proto : Z;
  tuple_pad : list byte
}.

Record event_t := {
  ev_pid : Z;
  ev_type : Z;
  ev_addr : Z;
  ev_skb_addr : Z;
  ev_ts : Z;
  ev_print_skb_id : Z;
  ev_meta : skb_meta;
  ev_tuple : tuple;
  ev_print_stack_id : Z
}.

(** [union addr]: sixteen bytes seen as two [u64]; [v4addr] overlays the
    low four bytes of the first. *)
Record addr := { addr_pad0 : Z; addr_pad1 : Z }.

Definition v4addr (a : addr) : Z := wrap 32 (addr_pad0 a).

Record config := {
  cfg_mark : Z;
  cfg_ipv6 : Z;
  cfg_saddr : addr;
  cfg_daddr : addr;
  cfg_l4_proto : Z;
  cfg_sport : Z;
  cfg_dport : Z;
  cfg_output_timestamp : Z;
  cfg_output_meta : Z;
  cfg_output_tuple : Z;
  cfg_output_skb : Z;
  cfg_output_stack : Z;
  cfg_pad : Z
}.

(** [struct event_t event = {}]. *)
Definition skb_meta_zero : skb_meta :=
  {| meta_mark := 0; meta_ifindex := 0; meta_len := 0; meta_mtu := 0;
     meta_protocol := 0; meta_pad := 0 |}.

Definition tuple_zero : tuple :=
  {| tuple_saddr := 0; tuple_daddr := 0; tuple_sport := 0; tuple_dport := 0;
     tuple_proto := 0; tuple_pad := zeroes 7 |}.

Definition event_zero : event_t :=
  {| ev_pid := 0; ev_type := 0; ev_addr := 0; ev_skb_addr := 0; ev_ts := 0;
     ev_print_skb_id := 0; ev_meta := skb_meta_zero; ev_tuple := tuple_zero;
     ev_print_stack_id := 0 |}.

(** Field assignments. *)
Definition set_meta_mark (v : Z) (x : skb_meta) : skb_meta :=
  {| meta_mark := v; meta_ifindex := meta_ifindex x; meta_len := meta_len x;
     meta_mtu := meta_mtu x; meta_protocol := meta_protocol x;
     meta_pad := meta_pad x |}.
Definition set_meta_ifindex (v : Z) (x : skb_meta) : skb_meta :=
  {| meta_mark := meta_mark x; meta_ifindex := v; meta_len := meta_len x;
     meta_mtu := meta_mtu x; meta_protocol := meta_protocol x;
     meta_pad := meta_pad x |}.
Definition set_meta_len (v : Z) (x : skb_meta) : skb_meta :=
  {| meta_mark := meta_mark x; meta_ifindex := meta_ifindex x; meta_len := v;
     meta_mtu := meta_mtu x; meta_protocol := meta_protocol x;
     meta_pad := meta_pad x |}.
Definition set_meta_mtu (v : Z) (x : skb_meta) : skb_meta :=
  {| meta_mark := meta_mark x; meta_ifindex := meta_ifindex x;
     meta_len := meta_len x; meta_mtu := v; meta_protocol := meta_protocol x;
     meta_pad := meta_pad x |}.
Definition set_meta_protocol (v : Z) (x : skb_meta) : skb_meta :=
  {| meta_mark := meta_mark x; meta_ifindex := meta_ifindex x;
     meta_len := meta_len x; meta_mtu := meta_mtu x; meta_protocol := v;
     meta_pad := meta_pad x |}.

Definition set_tuple_saddr (v : Z) (x : tuple) : tuple :=
  {| tuple_saddr := v; tuple_daddr := tuple_daddr x;
     tuple_sport := tuple_sport x; tuple_dport := tuple_dport x;
     tuple_proto := tuple_proto x; tuple_pad := tuple_pad x |}.
Definition set_tuple_daddr (v : Z) (x : tuple) : tuple :=
  {| tuple_saddr := tuple_saddr x; tuple_daddr := v;
     tuple_sport := tuple_sport x; tuple_dport := tuple_dport x;
     tuple_proto := tuple_proto x; tuple_pad := tuple_pad x |}.
Definition set_tuple_sport (v : Z) (x : tuple) : tuple :=
  {| tuple_saddr := tuple_saddr x; tuple_daddr := tuple_daddr x;
     tuple_sport := v; tuple_dport := tuple_dport x;
     tuple_proto := tuple_proto x; tuple_pad := tuple_pad x |}.
Definition set_tuple_dport (v : Z) (x : tuple) : tuple :=
  {| tuple_saddr := tuple_saddr x; tuple_daddr := tuple_daddr x;
     tuple_sport := tuple_sport x; tuple_dport := v;
     tuple_proto := tuple_proto x; tuple_pad := tuple_pad x |}.
Definition set_tuple_proto (v : Z) (x : tuple) : tuple :=
  {| tuple_saddr := tuple_saddr x; tuple_daddr := tuple_daddr x;
     tuple_sport := tuple_sport x; tuple_dport := tuple_dport x;
     tuple_proto := v; tuple_pad := tuple_pad x |}.
(** A write of [bs] at the start of the [pad] array. *)
Definition set_tuple_pad (bs : list byte) (x : tuple) : tuple :=
  {| tuple_saddr := tuple_saddr x; tuple_daddr := tuple_daddr x;
     tuple_sport := tuple_sport x; tuple_dport := tuple_dport x;
     tuple_proto := tuple_proto x;
     tuple_pad := bs ++ skipn (length bs) (tuple_pad x) |}.

(** C truth value of an integer. *)
Definition truthy (x : Z) : bool := negb (x =? 0).

(** ** Reading the traced object *)

Section Probe.

(** The build: the field offsets and the outcome of the
    [LINUX_KERNEL_VERSION >= KERNEL_VERSION(5, 5, 0)] gate; and the memory
    the invocation runs against. *)
Variable K : kernel_layout.
Variable core : bool.
Variable m : memory.

(** [BPF_CORE_READ(src, a)] and [BPF_CORE_READ(src, a, b)]: the second
    reads the pointer [src->a] into a temporary and then the field [b]
    through it, whatever the first read returned. *)
Definition BPF_CORE_READ (src off : Z) (size : nat) : Z :=
  le_combine (snd (bpf_core_read m size (ptr_add src off))).

Definition BPF_CORE_READ2 (src off1 off2 : Z) (size : nat) : Z :=
  let t := le_combine (snd (bpf_core_read m 8 (ptr_add src off1))) in
  le_combine (snd (bpf_core_read m size (ptr_add t off2))).

(** A scalar field of the [sk_buff], read the way the build gate selects:
    [x = BPF_CORE_READ(skb, f)] or [bpf_probe_read(&x, sizeof(x), &skb->f)]. *)
Definition skb_field (skb off : Z) (size : nat) : Z :=
  if core then BPF_CORE_READ skb off size
  else read_scalar m size (ptr_add skb off).

(** ** The filter *)

Definition filter_mark (skb : Z) (cfg : config) : bool :=
  if truthy (cfg_mark cfg) then
    let mark := skb_field skb (sk_buff_mark K) 4 in
    mark =? cfg_mark cfg
  else true.

Definition filter_l3_and_l4 (skb : Z) (cfg : config) : bool :=
  if negb (truthy (cfg_l4_proto cfg))
     && (addr_pad0 (cfg_saddr cfg) =? 0) && (addr_pad1 (cfg_saddr cfg) =? 0)
     && (addr_pad0 (cfg_daddr cfg) =? 0) && (addr_pad1 (cfg_daddr cfg) =? 0)
     && negb (truthy (cfg_sport cfg)) && negb (truthy (cfg_dport cfg))
  then true
  else
    let skb_head := skb_field skb (sk_buff_head K) 8 in
    let l3_off := skb_field skb (sk_buff_network_header K) 2 in
    let l4_off := skb_field skb (sk_buff_transport_header K) 2 in
    let tmp := ptr_add skb_head l3_off in
    let iphdr_first_byte := read_scalar m 1 tmp in
    let ip_vsn := Z.shiftr iphdr_first_byte 4 in
    if negb (ip_vsn =? 4) then false
    else
      let ip4 := snd (bpf_probe_read m Hdr.sizeof_iphdr tmp) in
      let ip4_saddr := field Hdr.iphdr_saddr 4 ip4 in
      let ip4_daddr := field Hdr.iphdr_daddr 4 ip4 in
      let ip4_protocol := field Hdr.iphdr_protocol 1 ip4 in
      if negb (v4addr (cfg_saddr cfg) =? 0)
         && negb (ip4_saddr =? v4addr (cfg_saddr cfg)) then false
      else if negb (v4addr (cfg_daddr cfg) =? 0)
              && negb (ip4_daddr =? v4addr (cfg_daddr cfg)) then false
      else if truthy (cfg_l4_proto cfg)
              && negb (ip4_protocol =? cfg_l4_proto cfg) then false
      else if truthy (cfg_dport cfg) || truthy (cfg_sport cfg) then
        let tmp4 := ptr_add skb_head l4_off in
        let ports :=
          if ip4_protocol =? IPPROTO_TCP then
            let tcp := snd (bpf_probe_read m Hdr.sizeof_tcphdr tmp4) in
            Some (field Hdr.tcphdr_source 2 tcp, field Hdr.tcphdr_dest 2 tcp)
          else if ip4_protocol =? IPPROTO_UDP then
            let udp := snd (bpf_probe_read m Hdr.sizeof_udphdr tmp4) in
            Some (field Hdr.udphdr_source 2 udp, field Hdr.udphdr_dest 2 udp)
          else None in
        match ports with
        | None => false
        | Some (sport, dport) =>
            if truthy (cfg_sport cfg) && negb (sport =? cfg_sport cfg) then false
            else if truthy (cfg_dport cfg) && negb (dport =? cfg_dport cfg) then false
            else true
        end
      else true.

Definition filter (skb : Z) (cfg : config) : bool :=
  filter_mark skb cfg && filter_l3_and_l4 skb cfg.

(** ** The extractors *)

Definition set_meta (skb : Z) (meta : skb_meta) : skb_meta :=
  if core then
    let meta := set_meta_mark (BPF_CORE_READ skb (sk_buff_mark K) 4) meta in
    let meta := set_meta_len (BPF_CORE_READ skb (sk_buff_len K) 4) meta in
    let meta :=
      set_meta_protocol (BPF_CORE_READ skb (sk_buff_protocol K) 2) meta in
    let meta :=
      set_meta_ifindex
        (BPF_CORE_READ2 skb (sk_buff_dev K) (net_device_ifindex K) 4) meta in
    set_meta_mtu (BPF_CORE_READ2 skb (sk_buff_dev K) (net_device_mtu K) 4) meta
  else
    let meta :=
      set_meta_mark (read_scalar m 4 (ptr_add skb (sk_buff_mark K))) meta in
    let meta :=
      set_meta_len (read_scalar m 4 (ptr_add skb (sk_buff_len K))) meta in
    let meta :=
      set_meta_protocol
        (read_scalar m 2 (ptr_add skb (sk_buff_protocol K))) meta in
    let (rc, dev_bytes) := bpf_probe_read m 8 (ptr_add skb (sk_buff_dev K)) in
    if negb (truthy rc) then
      let dev := le_combine dev_bytes in
      let meta :=
        set_meta_ifindex
          (read_scalar m 4 (ptr_add dev (net_device_ifindex K))) meta in
      set_meta_mtu (read_scalar m 4 (ptr_add dev (net_device_mtu K))) meta
    else meta.

Definition set_tuple (skb : Z) (tpl : tuple) : tuple :=
  let skb_head := skb_field skb (sk_buff_head K) 8 in
  let l3_off := skb_field skb (sk_buff_network_header K) 2 in
  let l4_off := skb_field skb (sk_buff_transport_header K) 2 in
  let ip := ptr_add skb_head l3_off in
  let tpl :=
    set_tuple_proto (read_scalar m 1 (ptr_add ip Hdr.iphdr_protocol)) tpl in
  let iphdr_first_byte := read_scalar m 1 ip in
  let ip_vsn := Z.shiftr iphdr_first_byte 4 in
  let tpl :=
    if ip_vsn =? 4 then
      let tpl :=
        set_tuple_saddr (read_scalar m 4 (ptr_add ip Hdr.iphdr_saddr)) tpl in
      let tpl :=
        set_tuple_daddr (read_scalar m 4 (ptr_add ip Hdr.iphdr_daddr)) tpl in
      set_tuple_pad (snd (bpf_probe_read m 4 (ptr_add ip Hdr.iphdr_daddr))) tpl
    else tpl in
  if tuple_proto tpl =? IPPROTO_TCP then
    let tcp := ptr_add skb_head l4_off in
    let tpl :=
      set_tuple_sport (read_scalar m 2 (ptr_add tcp Hdr.tcphdr_source)) tpl in
    set_tuple_dport (read_scalar m 2 (ptr_add tcp Hdr.tcphdr_dest)) tpl
  else if tuple_proto tpl =? IPPROTO_UDP then
    let udp := ptr_add skb_head l4_off in
    let tpl :=
      set_tuple_sport (read_scalar m 2 (ptr_add udp Hdr.udphdr_source)) tpl in
    set_tuple_dport (read_scalar m 2 (ptr_add udp Hdr.udphdr_dest)) tpl
  else tpl.

(** What the two header walks look at, named for the statements below. *)
Definition l3_header (skb : Z) : Z :=
  ptr_add (skb_field skb (sk_buff_head K) 8)
          (skb_field skb (sk_buff_network_header K) 2).

Definition l4_header (skb : Z) : Z :=
  ptr_add (skb_field skb (sk_buff_head K) 8)
          (skb_field skb (sk_buff_transport_header K) 2).

Definition ip_version (skb : Z) : Z :=
  Z.shiftr (read_scalar m 1 (l3_header skb)) 4.

End Probe.

(** ** The handler *)

(** What an invocation can change: the global [print_skb_id] counter, the
    buffers of [print_skb_map], and the records handed to
    [bpf_perf_event_output] on the [events] channel, oldest first. *)
Record state := {
  print_skb_id : Z;
  print_skb_map : list (list byte);
  events : list event_t
}.

(** The helpers an invocation calls, as the kernel answers them:
    [bpf_map_lookup_elem(&cfg_map, &index)] gives the configuration or NULL;
    [bpf_snprintf_btf] takes the object and the buffer it is given and
    returns its code with the buffer as it leaves it. *)
Record helpers := {
  kmem : memory;
  cfg_map_lookup : option config;
  bpf_get_current_pid_tgid : Z;
  bpf_ktime_get_ns : Z;
  bpf_get_stackid : pt_regs -> Z;
  bpf_snprintf_btf : Z -> list byte -> Z * list byte
}.

Fixpoint list_set {A} (l : list A) (i : nat) (x : A) : list A :=
  match l, i with
  | [], _ => []
  | _ :: r, O => x :: r
  | a :: r, S j => a :: list_set r j x
  end.

Definition set_ev_print_skb_id (v : Z) (e : event_t) : event_t :=
  {| ev_pid := ev_pid e; ev_type := ev_type e; ev_addr := ev_addr e;
     ev_skb_addr := ev_skb_addr e; ev_ts := ev_ts e; ev_print_skb_id := v;
     ev_meta := ev_meta e; ev_tuple := ev_tuple e;
     ev_print_stack_id := ev_print_stack_id e |}.
Definition set_ev_meta (v : skb_meta) (e : event_t) : event_t :=
  {| ev_pid := ev_pid e; ev_type := ev_type e; ev_addr := ev_addr e;
     ev_skb_addr := ev_skb_addr e; ev_ts := ev_ts e;
     ev_print_skb_id := ev_print_skb_id e; ev_meta := v;
     ev_tuple := ev_tuple e; ev_print_stack_id := ev_print_stack_id e |}.
Definition set_ev_tuple (v : tuple) (e : event_t) : event_t :=
  {| ev_pid := ev_pid e; ev_type := ev_type e; ev_addr := ev_addr e;
     ev_skb_addr := ev_skb_addr e; ev_ts := ev_ts e;
     ev_print_skb_id := ev_print_skb_id e; ev_meta := ev_meta e;
     ev_tuple := v; ev_print_stack_id := ev_print_stack_id e |}.
Definition set_ev_print_stack_id (v : Z) (e : event_t) : event_t :=
  {| ev_pid := ev_pid e; ev_type := ev_type e; ev_addr := ev_addr e;
     ev_skb_addr := ev_skb_addr e; ev_ts := ev_ts e;
     ev_print_skb_id := ev_print_skb_id e; ev_meta := ev_meta e;
     ev_tuple := ev_tuple e; ev_print_stack_id := v |}.

(** [__sync_fetch_and_add(&print_skb_id, 1)]: the old value, and the state
    with the [u64] counter advanced. *)
Definition fetch_and_add_print_skb_id (st : state) : Z * state :=
  (print_skb_id st,
   {| print_skb_id := wrap 64 (print_skb_id st + 1);
      print_skb_map := print_skb_map st;
      events := events st |}).

Definition write_print_skb_map (key : Z) (buf : list byte) (st : state) : state :=
  {| print_skb_id := print_skb_id st;
     print_skb_map := list_set (print_skb_map st) (Z.to_nat key) buf;
     events := events st |}.

Definition bpf_perf_event_output (event : event_t) (st : state) : state :=
  {| print_skb_id := print_skb_id st;
     print_skb_map := print_skb_map st;
     events := events st ++ [event] |}.

Section Handler.

Variable K : kernel_layout.
Variable core : bool.
(** Whether the build defines [OUTPUT_SKB]. *)
Variable OUTPUT_SKB : bool.
Variable E : helpers.

(** The state after the call and the value of [*event_id]. *)
Definition set_skb_btf (skb : Z) (event_id : Z) (st : state) : state * Z :=
  if OUTPUT_SKB then
    let (old, st) := fetch_and_add_print_skb_id st in
    let id := old mod 256 in
    let key := wrap 32 id in
    match nth_error (print_skb_map st) (Z.to_nat key) with
    | None => (st, event_id)
    | Some str =>
        let (rc, str') := bpf_snprintf_btf E skb str in
        let st := write_print_skb_map key str' st in
        if rc <? 0 then (st, event_id) else (st, id)
    end
  else (st, event_id).

Definition set_output (ctx : pt_regs) (skb : Z) (event : event_t)
    (cfg : config) (st : state) : state * event_t :=
  let event :=
    if truthy (cfg_output_meta cfg)
    then set_ev_meta (set_meta K core (kmem E) skb (ev_meta event)) event
    else event in
  let event :=
    if truthy (cfg_output_tuple cfg)
    then set_ev_tuple (set_tuple K core (kmem E) skb (ev_tuple event)) event
    else event in
  let (st, event) :=
    if truthy (cfg_output_skb cfg)
    then let (st, id) := set_skb_btf skb (ev_print_skb_id event) st in
         (st, set_ev_print_skb_id id event)
    else (st, event) in
  let event :=
    if truthy (cfg_output_stack cfg)
    then set_ev_print_stack_id (bpf_get_stackid E ctx) event
    else event in
  (st, event).

(** The tail of [handle_everything]: stamp the event and publish it. *)
Definition stamp_and_emit (ctx : pt_regs) (skb : Z) (event : event_t)
    (st : state) : Z * state :=
  let event :=
    {| ev_pid := wrap 32 (bpf_get_current_pid_tgid E);
       ev_type := ev_type event;
       ev_addr := PT_REGS_IP ctx;
       ev_skb_addr := skb;
       ev_ts := bpf_ktime_get_ns E;
       ev_print_skb_id := ev_print_skb_id event;
       ev_meta := ev_meta event;
       ev_tuple := ev_tuple event;
       ev_print_stack_id := ev_print_stack_id event |} in
  (0, bpf_perf_event_output event st).

(** The return value and the state after the invocation. *)
Definition handle_everything (skb : Z) (ctx : pt_regs) (st : state) : Z * state :=
  let event := event_zero in
  match cfg_map_lookup E with
  | Some cfg =>
      if negb (filter K core (kmem E) skb cfg) then (0, st)
      else
        let (st, event) := set_output ctx skb event cfg st in
        stamp_and_emit ctx skb event st
  | None => stamp_and_emit ctx skb event st
  end.

Definition kprobe_skb_1 (ctx : pt_regs) (st : state) : Z * state :=
  let skb := PT_REGS_PARM1 ctx in
  handle_everything skb ctx st.

Definition kprobe_skb_2 (ctx : pt_regs) (st : state) : Z * state :=
  let skb := PT_REGS_PARM2 ctx in
  handle_everything skb ctx st.

Definition kprobe_skb_3 (ctx : pt_regs) (st : state) : Z * state :=
  let skb := PT_REGS_PARM3 ctx in
  handle_everything skb ctx st.

Definition kprobe_skb_4 (ctx : pt_regs) (st : state) : Z * state :=
  let skb := PT_REGS_PARM4 ctx in
  handle_everything skb ctx st.

Definition kprobe_skb_5 (ctx : pt_regs) (st : state) : Z * state :=
  let skb := PT_REGS_PARM5 ctx in
  handle_everything skb ctx st.

End Handler.

(** The five entry points, indexed by the argument position they read. *)
Inductive arg_pos := Arg1 | Arg2 | Arg3 | Arg4 | Arg5.

Definition PT_REGS_PARM (i : arg_pos) : pt_regs -> Z :=
  match i with
  | Arg1 => PT_REGS_PARM1
  | Arg2 => PT_REGS_PARM2
  | Arg3 => PT_REGS_PARM3
  | Arg4 => PT_REGS_PARM4
  | Arg5 => PT_REGS_PARM5
  end.

Definition kprobe_skb (K : kernel_layout) (core OUTPUT_SKB : bool)
    (E : helpers) (i : arg_pos) : pt_regs -> state -> Z * state :=
  match i with
  | Arg1 => kprobe_skb_1 K core OUTPUT_SKB E
  | Arg2 => kprobe_skb_2 K core OUTPUT_SKB E
  | Arg3 => kprobe_skb_3 K core OUTPUT_SKB E
  | Arg4 => kprobe_skb_4 K core OUTPUT_SKB E
  | Arg5 => kprobe_skb_5 K core OUTPUT_SKB E
  end.

(** ** Vocabulary of the statements *)

(** The 5-tuple part of a configuration is empty. *)
Definition tuple_filter_zero (cfg : config) : Prop :=
  cfg_l4_proto cfg = 0
  /\ addr_pad0 (cfg_saddr cfg) = 0 /\ addr_pad1 (cfg_saddr cfg) = 0
  /\ addr_pad0 (cfg_daddr cfg) = 0 /\ addr_pad1 (cfg_daddr cfg) = 0
  /\ cfg_sport cfg = 0 /\ cfg_dport cfg = 0.

(** Some field of the 5-tuple part is set. *)
Definition tuple_filter_nonzero (cfg : config) : Prop :=
  cfg_l4_proto cfg <> 0
  \/ addr_pad0 (cfg_saddr cfg) <> 0 \/ addr_pad1 (cfg_saddr cfg) <> 0
  \/ addr_pad0 (cfg_daddr cfg) <> 0 \/ addr_pad1 (cfg_daddr cfg) <> 0
  \/ cfg_sport cfg <> 0 \/ cfg_dport cfg <> 0.

(** A configured value of zero does not constrain; any other must be met. *)
Definition matches (configured actual : Z) : bool :=
  (configured =? 0) || (actual =? configured).

Section Vocabulary.

Variable K : kernel_layout.
Variable core : bool.
Variable m : memory.

(** The IPv4 header as [filter_l3_and_l4] copies it, and its protocol. *)
Definition ipv4_header (skb : Z) : list byte :=
  snd (bpf_probe_read m Hdr.sizeof_iphdr (l3_header K core m skb)).

Definition ipv4_protocol (skb : Z) : Z :=
  field Hdr.iphdr_protocol 1 (ipv4_header skb).

(** The version, address and protocol checks that come before the ports. *)
Definition l3_pass (skb : Z) (cfg : config) : bool :=
  (ip_version K core m skb =? 4)
  && matches (v4addr (cfg_saddr cfg)) (field Hdr.iphdr_saddr 4 (ipv4_header skb))
  && matches (v4addr (cfg_daddr cfg)) (field Hdr.iphdr_daddr 4 (ipv4_header skb))
  && matches (cfg_l4_proto cfg) (ipv4_protocol skb).

(** The transport header as copied for protocol [proto]: a [struct tcphdr]
    for TCP, a [struct udphdr] for UDP. *)
Definition l4_copy (proto : Z) (skb : Z) : list byte :=
  snd (bpf_probe_read m
         (if proto =? IPPROTO_TCP then Hdr.sizeof_tcphdr else Hdr.sizeof_udphdr)
         (l4_header K core m skb)).

End Vocabulary.

(** ** Sample objects *)

Module Sample.

Definition bytes (l : list Z) : list byte := map byte.of_Z l.

(** A layout in the style of a 5.4 x86-64 kernel. *)
Definition layout : kernel_layout :=
  {| sk_buff_mark := 164; sk_buff_len := 112; sk_buff_protocol := 176;
     sk_buff_dev := 16; sk_buff_head := 192; sk_buff_network_header := 180;
     sk_buff_transport_header := 178;
     net_device_ifindex := 264; net_device_mtu := 568 |}.

Definition skb : Z := 0x10000.
Definition head : Z := 0x20000.
Definition dev : Z := 0x30000.

(** The fields of an [sk_buff] with mark 5 whose network header sits 78
    bytes and whose transport header [l4] bytes into the buffer at [head]. *)
Definition skb_fields (l4 : Z) (with_dev : bool) : list (Z * list byte) :=
  [ (skb + 164, le_split 4 5);
    (skb + 112, le_split 4 60);
    (skb + 176, bytes [0x08; 0x00]);
    (skb + 192, le_split 8 head);
    (skb + 180, le_split 2 78);
    (skb + 178, le_split 2 l4) ]
  ++ (if with_dev then [ (skb + 16, le_split 8 dev) ] else []).

Definition dev_fields : list (Z * list byte) :=
  [ (dev + 264, le_split 4 2); (dev + 568, le_split 4 1500) ].

(** IPv4, TCP, 192.168.1.1:4444 to 192.168.1.2:443. *)
Definition ipv4_tcp_packet : list byte :=
  bytes [0x45; 0x00; 0x00; 0x28; 0x00; 0x00; 0x40; 0x00; 0x40; 0x06; 0x00; 0x00;
         192; 168; 1; 1;  192; 168; 1; 2;
         0x11; 0x5c; 0x01; 0xbb; 0; 0; 0; 0; 0; 0; 0; 0;
         0x50; 0x02; 0xff; 0xff; 0; 0; 0; 0].

(** IPv4, UDP, 10.0.0.1:53 to 0.0.0.0:68. *)
Definition ipv4_udp_to_zero_packet : list byte :=
  bytes [0x45; 0x00; 0x00; 0x1c; 0x00; 0x00; 0x40; 0x00; 0x40; 0x11; 0x00; 0x00;
         10; 0; 0; 1;  0; 0; 0; 0;
         0x00; 0x35; 0x00; 0x44; 0x00; 0x08; 0x00; 0x00].

(** IPv6, TCP, from 2a06:98c0::1 port 4444 to 2001:db8::2 port 443: byte 9
    of the network header is the second byte of the source address. *)
Definition ipv6_tcp_packet : list byte :=
  bytes [0x60; 0x00; 0x00; 0x00; 0x00; 0x14; 0x06; 0x40;
         0x2a; 0x06; 0x98; 0xc0; 0; 0; 0; 0; 0; 0; 0; 0; 0; 0; 0; 1;
         0x20; 0x01; 0x0d; 0xb8; 0; 0; 0; 0; 0; 0; 0; 0; 0; 0; 0; 2;
         0x11; 0x5c; 0x01; 0xbb; 0; 0; 0; 0; 0; 0; 0; 0;
         0x50; 0x02; 0xff; 0xff; 0; 0; 0; 0].

Definition mem_ipv4_tcp : memory :=
  mem_of (skb_fields 98 true ++ dev_fields ++ [ (head + 78, ipv4_tcp_packet) ]).

Definition mem_ipv4_udp_to_zero : memory :=
  mem_of (skb_fields 98 true ++ dev_fields
          ++ [ (head + 78, ipv4_udp_to_zero_packet) ]).

Definition mem_ipv6_tcp : memory :=
  mem_of (skb_fields 118 true ++ dev_fields ++ [ (head + 78, ipv6_tcp_packet) ]).

(** The same IPv4 object with an unreadable [dev] field. *)
Definition mem_no_dev : memory :=
  mem_of (skb_fields 98 false ++ [ (head + 78, ipv4_tcp_packet) ]).

(** Nothing readable at all. *)
Definition mem_empty : memory := mem_of [].

Definition addr_zero : addr := {| addr_pad0 := 0; addr_pad1 := 0 |}.

Definition cfg (mark l4_proto sport dport : Z) (flags : Z) : config :=
  {| cfg_mark := mark; cfg_ipv6 := 0;
     cfg_saddr := addr_zero; cfg_daddr := addr_zero;
     cfg_l4_proto := l4_proto; cfg_sport := sport; cfg_dport := dport;
     cfg_output_timestamp := 0; cfg_output_meta := flags;
     cfg_output_tuple := flags; cfg_output_skb := flags;
     cfg_output_stack := flags; cfg_pad := 0 |}.

(** Port 443 as the program compares it: the two bytes [01 bb] of the wire
    read as a little-endian [u16]. *)
Definition port_443 : Z := 0xbb01.

Definition regs (a1 a2 : Z) : pt_regs :=
  {| di := a1; si := a2; dx := 0; cx := 0; r8 := 0;
     sp := 0xffffc90000003f00; bp := 0xffffc90000003f40; ax := 0;
     ip := 0xffffffff81a2b3c0 |}.

Definition env (mem : memory) (c : option config) : helpers :=
  {| kmem := mem; cfg_map_lookup := c;
     bpf_get_current_pid_tgid := 0x0000044d0000044e;
     bpf_ktime_get_ns := 1000000007;
     bpf_get_stackid := fun _ => 42;
     bpf_snprintf_btf := fun p _ => (17, bytes [0x28; 0x73; 0x6b; 0x62; 0x29]) |}.

Definition st0 (counter : Z) : state :=
  {| print_skb_id := counter; print_skb_map := repeat [] 256; events := [] |}.

End Sample.

(** ** Further vocabulary *)

(** A value that fits an unsigned C type of [w] bits. *)
Definition fits (w x : Z) : Prop := 0 <= x < 2 ^ w.

(** A configured value of zero asks for nothing; any other is to be met. *)
Definition meets (configured actual : Z) : Prop :=
  configured = 0 \/ actual = configured.

(** Only addresses of the 64-bit address space hold bytes. *)
Definition mem_wf (m : memory) : Prop :=
  forall a, m a <> None -> 0 <= a < 2 ^ 64.

(** The regions of a memory description all lie in the address space. *)
Definition regions_in_range (regions : list (Z * list byte)) : bool :=
  forallb (fun r => (0 <=? fst r)
                    && (fst r + Z.of_nat (length (snd r)) <=? 2 ^ 64))
          regions.

Definition skb_meta_wf (x : skb_meta) : Prop :=
  fits 32 (meta_mark x) /\ fits 32 (meta_ifindex x) /\ fits 32 (meta_len x)
  /\ fits 32 (meta_mtu x) /\ fits 16 (meta_protocol x).

Definition tuple_wf (x : tuple) : Prop :=
  fits 32 (tuple_saddr x) /\ fits 32 (tuple_daddr x)
  /\ fits 16 (tuple_sport x) /\ fits 16 (tuple_dport x)
  /\ fits 8 (tuple_proto x) /\ length (tuple_pad x) = 7%nat.

(** The fields of a configuration the program never reads, replaced. *)
Definition with_unread_fields (ipv6 output_timestamp pad : Z) (cfg : config)
    : config :=
  {| cfg_mark := cfg_mark cfg; cfg_ipv6 := ipv6;
     cfg_saddr := cfg_saddr cfg; cfg_daddr := cfg_daddr cfg;
     cfg_l4_proto := cfg_l4_proto cfg;
     cfg_sport := cfg_sport cfg; cfg_dport := cfg_dport cfg;
     cfg_output_timestamp := output_timestamp;
     cfg_output_meta := cfg_output_meta cfg;
     cfg_output_tuple := cfg_output_tuple cfg;
     cfg_output_skb := cfg_output_skb cfg;
     cfg_output_stack := cfg_output_stack cfg; cfg_pad := pad |}.

(** The same helpers, with another answer to the configuration lookup. *)
Definition with_config (c : option config) (E : helpers) : helpers :=
  {| kmem := kmem E; cfg_map_lookup := c;
     bpf_get_current_pid_tgid := bpf_get_current_pid_tgid E;
     bpf_ktime_get_ns := bpf_ktime_get_ns E;
     bpf_get_stackid := bpf_get_stackid E;
     bpf_snprintf_btf := bpf_snprintf_btf E |}.

(** Nothing is filtered on and no output is asked for. *)
Definition plain_config (cfg : config) : Prop :=
  cfg_mark cfg = 0 /\ tuple_filter_zero cfg
  /\ cfg_output_meta cfg = 0 /\ cfg_output_tuple cfg = 0
  /\ cfg_output_skb cfg = 0 /\ cfg_output_stack cfg = 0.

(** Successive calls of [set_skb_btf], one per object, each on behalf of a
    fresh event (whose dump id starts at zero): the ids the events end up
    with, and the final state. *)
Fixpoint dump_calls (E : helpers) (skbs : list Z) (st : state)
    : list Z * state :=
  match skbs with
  | [] => ([], st)
  | skb :: rest =>
      let (st1, id) := set_skb_btf true E skb 0 st in
      let (ids, st2) := dump_calls E rest st1 in
      (id :: ids, st2)
  end.

Module Sample2.

(** The IPv4/TCP object of [Sample], with the packet cut after the first
    eight bytes of the TCP header. *)
Definition mem_tcp_truncated : memory :=
  mem_of (Sample.skb_fields 98 true ++ Sample.dev_fields
          ++ [ (Sample.head + 78, firstn 28 Sample.ipv4_tcp_packet) ]).

Definition regions_ipv4_tcp : list (Z * list byte) :=
  Sample.skb_fields 98 true ++ Sample.dev_fields
  ++ [ (Sample.head + 78, Sample.ipv4_tcp_packet) ].

(** A configuration whose source address union holds an IPv6 address with
    zero first four bytes, and nothing else. *)
Definition cfg_high_addr : config :=
  {| cfg_mark := 0; cfg_ipv6 := 1;
     cfg_saddr := {| addr_pad0 := 0x0100000000000000; addr_pad1 := 1 |};
     cfg_daddr := Sample.addr_zero;
     cfg_l4_proto := 0; cfg_sport := 0; cfg_dport := 0;
     cfg_output_timestamp := 0; cfg_output_meta := 0;
     cfg_output_tuple := 0; cfg_output_skb := 0;
     cfg_output_stack := 0; cfg_pad := 0 |}.

(** Filter on 192.168.1.1 to 192.168.1.2, TCP, ports 4444 to 443, asking
    for every output. *)
Definition cfg_full : config :=
  {| cfg_mark := 5; cfg_ipv6 := 0;
     cfg_saddr := {| addr_pad0 := 0x0101a8c0; addr_pad1 := 0 |};
     cfg_daddr := {| addr_pad0 := 0x0201a8c0; addr_pad1 := 0 |};
     cfg_l4_proto := IPPROTO_TCP; cfg_sport := 0x5c11; cfg_dport := 0xbb01;
     cfg_output_timestamp := 1; cfg_output_meta := 1;
     cfg_output_tuple := 1; cfg_output_skb := 1;
     cfg_output_stack := 1; cfg_pad := 0 |}.

(** A state whose counter is about to wrap. *)
Definition st_last : state :=
  {| print_skb_id := 2 ^ 64 - 1; print_skb_map := repeat [] 256;
     events := [] |}.

End Sample2.

(** * Properties *)

(** ** Probe reads *)

Lemma load_bytes_length (m : memory) (n : nat) :
  forall a bs, load_bytes m a n = Some bs -> length bs = n.
Proof.
  induction n as [|n IH]; intros a bs; cbn [load_bytes].
  - intros [= <-]; reflexivity.
  - destruct (m a) as [b|]; [|discriminate].
    destruct (load_bytes m (a + 1) n) as [r|] eqn:Hr; [|discriminate].
    intros [= <-]; cbn [length]; f_equal; eauto.
Qed.

(** A readable range is readable piece by piece, with the same bytes. *)
Lemma load_bytes_sub (m : memory) (n : nat) :
  forall a bs k j,
    load_bytes m a n = Some bs ->
    (k + j <= n)%nat ->
    load_bytes m (a + Z.of_nat k) j = Some (firstn j (skipn k bs)).
Proof.
  induction n as [|n IH]; intros a bs k j; cbn [load_bytes].
  - intros [= <-] Hle.
    assert (k = 0%nat) by lia; assert (j = 0%nat) by lia; subst.
    reflexivity.
  - destruct (m a) as [b|] eqn:Hb; [|discriminate].
    destruct (load_bytes m (a + 1) n) as [r|] eqn:Hr; [|discriminate].
    intros [= <-] Hle.
    destruct k as [|k].
    + rewrite Z.add_0_r; cbn [skipn].
      destruct j as [|j]; [reflexivity|].
      cbn [load_bytes firstn]; rewrite Hb.
      specialize (IH (a + 1) r 0%nat j Hr ltac:(lia)).
      rewrite Z.add_0_r in IH; cbn [skipn] in IH.
      rewrite IH; reflexivity.
    + cbn [skipn].
      replace (a + Z.of_nat (S k)) with (a + 1 + Z.of_nat k) by lia.
      apply IH; [assumption | lia].
Qed.

Lemma bpf_probe_read_ok (m : memory) (n : nat) (a : Z) (bs : list byte) :
  load_bytes m a n = Some bs -> bpf_probe_read m n a = (0, bs).
Proof. unfold bpf_probe_read; intros ->; reflexivity. Qed.

Lemma bpf_probe_read_fault (m : memory) (n : nat) (a : Z) :
  load_bytes m a n = None -> bpf_probe_read m n a = (- EFAULT, zeroes n).
Proof. unfold bpf_probe_read; intros ->; reflexivity. Qed.

Lemma bpf_probe_read_length (m : memory) (n : nat) (a : Z) :
  length (snd (bpf_probe_read m n a)) = n.
Proof.
  unfold bpf_probe_read.
  destruct (load_bytes m a n) as [bs|] eqn:H; cbn [snd].
  - eapply load_bytes_length; eassumption.
  - apply repeat_length.
Qed.

(** A faulting read leaves a zero in the scalar it was to fill. *)
Lemma read_scalar_fault (m : memory) (n : nat) (a : Z) :
  load_bytes m a n = None -> read_scalar m n a = 0.
Proof.
  intros H; unfold read_scalar; rewrite (bpf_probe_read_fault _ _ _ H).
  apply le_combine_0.
Qed.

Lemma read_scalar_ok (m : memory) (n : nat) (a : Z) (bs : list byte) :
  load_bytes m a n = Some bs -> read_scalar m n a = le_combine bs.
Proof.
  intros H; unfold read_scalar; rewrite (bpf_probe_read_ok _ _ _ _ H).
  reflexivity.
Qed.

(** A field of a struct copy is the scalar read at the field's address. *)
Lemma field_of_copy (m : memory) (n : nat) (a : Z) (bs : list byte)
    (off : Z) (len : nat) :
  load_bytes m a n = Some bs ->
  0 <= off -> (Z.to_nat off + len <= n)%nat ->
  field off len bs = read_scalar m len (a + off).
Proof.
  intros H Hoff Hle; unfold field.
  pose proof (load_bytes_sub m n a bs (Z.to_nat off) len H Hle) as Hs.
  rewrite Z2Nat.id in Hs by assumption.
  rewrite (read_scalar_ok _ _ _ _ Hs); reflexivity.
Qed.

Lemma le_combine_eq_0 (bs : list byte) :
  le_combine bs = 0 -> bs = zeroes (length bs).
Proof.
  intros H; apply le_combine_inj.
  - unfold zeroes; rewrite repeat_length; reflexivity.
  - unfold zeroes; rewrite le_combine_0; assumption.
Qed.

Lemma truthy_false (x : Z) : truthy x = false <-> x = 0.
Proof. unfold truthy; destruct (Z.eqb_spec x 0); cbn; split; intros; congruence. Qed.

Lemma truthy_true (x : Z) : truthy x = true <-> x <> 0.
Proof. unfold truthy; destruct (Z.eqb_spec x 0); cbn; split; intros; congruence. Qed.

(** ** The filter *)

(** C2.  When the whole 5-tuple part of the configuration is zero (both
    address unions, the L4 protocol and both ports), [filter_l3_and_l4]
    returns true for every object and every memory, readable or not. *)
Theorem filter_l3_and_l4_empty_tuple
    (K : kernel_layout) (core : bool) (m : memory) (skb : Z) (cfg : config) :
  tuple_filter_zero cfg ->
  filter_l3_and_l4 K core m skb cfg = true.
Proof.
  intros (Hp & Hs0 & Hs1 & Hd0 & Hd1 & Hsp & Hdp).
  unfold filter_l3_and_l4.
  rewrite Hp, Hs0, Hs1, Hd0, Hd1, Hsp, Hdp.
  reflexivity.
Qed.

Lemma filter_l3_and_l4_empty_tuple_witness :
  tuple_filter_zero (Sample.cfg 5 0 0 0 1)
  /\ filter_l3_and_l4 Sample.layout false Sample.mem_empty Sample.skb
       (Sample.cfg 5 0 0 0 1) = true.
Proof.
  assert (H : tuple_filter_zero (Sample.cfg 5 0 0 0 1))
    by (repeat split; reflexivity).
  split; [exact H|].
  exact (filter_l3_and_l4_empty_tuple
           Sample.layout false Sample.mem_empty Sample.skb _ H).
Defined.

(** With some tuple field set, the fast path is not taken. *)
Lemma tuple_filter_nonzero_guard (cfg : config) :
  tuple_filter_nonzero cfg ->
  negb (truthy (cfg_l4_proto cfg))
  && (addr_pad0 (cfg_saddr cfg) =? 0) && (addr_pad1 (cfg_saddr cfg) =? 0)
  && (addr_pad0 (cfg_daddr cfg) =? 0) && (addr_pad1 (cfg_daddr cfg) =? 0)
  && negb (truthy (cfg_sport cfg)) && negb (truthy (cfg_dport cfg)) = false.
Proof.
  unfold tuple_filter_nonzero, truthy; intros H.
  destruct (Z.eqb_spec (cfg_l4_proto cfg) 0),
           (Z.eqb_spec (addr_pad0 (cfg_saddr cfg)) 0),
           (Z.eqb_spec (addr_pad1 (cfg_saddr cfg)) 0),
           (Z.eqb_spec (addr_pad0 (cfg_daddr cfg)) 0),
           (Z.eqb_spec (addr_pad1 (cfg_daddr cfg)) 0),
           (Z.eqb_spec (cfg_sport cfg) 0),
           (Z.eqb_spec (cfg_dport cfg) 0);
    try reflexivity.
  exfalso; intuition congruence.
Qed.

(** C3.  With at least one field of the 5-tuple part set, an object whose
    network header does not start with the version nibble 4 (a faulting
    read gives the nibble 0) is rejected by [filter_l3_and_l4]. *)
Theorem filter_l3_and_l4_not_ipv4
    (K : kernel_layout) (core : bool) (m : memory) (skb : Z) (cfg : config) :
  tuple_filter_nonzero cfg ->
  ip_version K core m skb <> 4 ->
  filter_l3_and_l4 K core m skb cfg = false.
Proof.
  intros Hnz Hv.
  unfold filter_l3_and_l4.
  rewrite (tuple_filter_nonzero_guard cfg Hnz).
  cbv zeta.
  fold (l3_header K core m skb).
  fold (ip_version K core m skb).
  destruct (Z.eqb_spec (ip_version K core m skb) 4); [contradiction|].
  reflexivity.
Qed.

Lemma filter_l3_and_l4_not_ipv4_witness :
  tuple_filter_nonzero (Sample.cfg 0 0 0 Sample.port_443 0)
  /\ ip_version Sample.layout false Sample.mem_ipv6_tcp Sample.skb <> 4
  /\ filter_l3_and_l4 Sample.layout false Sample.mem_ipv6_tcp Sample.skb
       (Sample.cfg 0 0 0 Sample.port_443 0) = false.
Proof.
  assert (Hc : tuple_filter_nonzero (Sample.cfg 0 0 0 Sample.port_443 0))
    by (unfold tuple_filter_nonzero; cbn; intuition discriminate).
  assert (Hv : ip_version Sample.layout false Sample.mem_ipv6_tcp Sample.skb <> 4)
    by (vm_compute; discriminate).
  split; [exact Hc|]. split; [exact Hv|].
  exact (filter_l3_and_l4_not_ipv4 _ _ _ _ _ Hc Hv).
Defined.

(** [filter_l3_and_l4] past its fast path, as one boolean expression: the
    checks on the network header, then the ports when one is configured. *)
Lemma filter_l3_and_l4_slow_path
    (K : kernel_layout) (core : bool) (m : memory) (skb : Z) (cfg : config) :
  tuple_filter_nonzero cfg ->
  filter_l3_and_l4 K core m skb cfg =
    l3_pass K core m skb cfg
    && (if truthy (cfg_dport cfg) || truthy (cfg_sport cfg) then
          let proto := ipv4_protocol K core m skb in
          let hdr := l4_copy K core m proto skb in
          ((proto =? IPPROTO_TCP) || (proto =? IPPROTO_UDP))
          && matches (cfg_sport cfg) (field 0 2 hdr)
          && matches (cfg_dport cfg) (field 2 2 hdr)
        else true).
Proof.
  intros Hnz.
  unfold filter_l3_and_l4.
  rewrite (tuple_filter_nonzero_guard cfg Hnz).
  unfold l3_pass, l4_copy, ipv4_protocol, ipv4_header, ip_version,
    l4_header, l3_header, matches, truthy.
  unfold Hdr.tcphdr_source, Hdr.tcphdr_dest, Hdr.udphdr_source, Hdr.udphdr_dest.
  cbv zeta.
  repeat match goal with
         | |- context [?a =? ?b] =>
             destruct (a =? b) eqn:?; cbv beta iota; cbn [negb andb orb]
         end;
    reflexivity.
Qed.

(** C4.  With a source or destination port configured: any IPv4 protocol
    byte other than TCP or UDP is rejected; for TCP and UDP alike the source
    port is the two bytes at offset 0 and the destination port the two bytes
    at offset 2 of the transport header, which are the bytes found in memory
    at those offsets when the header is readable; a configured port of zero
    is not compared and any other must equal the header's port. *)
Theorem filter_l3_and_l4_ports
    (K : kernel_layout) (core : bool) (m : memory) (skb : Z) (cfg : config) :
  cfg_sport cfg <> 0 \/ cfg_dport cfg <> 0 ->
  let proto := ipv4_protocol K core m skb in
  let hdr := l4_copy K core m proto skb in
  let l4 := l4_header K core m skb in
  (proto <> IPPROTO_TCP -> proto <> IPPROTO_UDP ->
   filter_l3_and_l4 K core m skb cfg = false)
  /\ (proto = IPPROTO_TCP \/ proto = IPPROTO_UDP ->
      filter_l3_and_l4 K core m skb cfg =
        l3_pass K core m skb cfg
        && matches (cfg_sport cfg) (field 0 2 hdr)
        && matches (cfg_dport cfg) (field 2 2 hdr))
  /\ (fst (bpf_probe_read m (length hdr) l4) = 0 ->
      field 0 2 hdr = read_scalar m 2 l4
      /\ field 2 2 hdr = read_scalar m 2 (l4 + 2)).
Proof.
  intros Hport proto hdr l4.
  assert (Hnz : tuple_filter_nonzero cfg)
    by (unfold tuple_filter_nonzero; tauto).
  assert (Hg : truthy (cfg_dport cfg) || truthy (cfg_sport cfg) = true).
  { apply orb_true_iff. rewrite !truthy_true. tauto. }
  pose proof (filter_l3_and_l4_slow_path K core m skb cfg Hnz) as Hf.
  rewrite Hg in Hf; cbv zeta in Hf; fold proto in Hf; fold hdr in Hf.
  split; [|split].
  - intros Ht Hu. rewrite Hf.
    destruct (Z.eqb_spec proto IPPROTO_TCP); [contradiction|].
    destruct (Z.eqb_spec proto IPPROTO_UDP); [contradiction|].
    cbn [orb andb]. apply andb_false_r.
  - intros Hp. rewrite Hf.
    assert (Hb : (proto =? IPPROTO_TCP) || (proto =? IPPROTO_UDP) = true).
    { apply orb_true_iff. rewrite !Z.eqb_eq. exact Hp. }
    rewrite Hb. cbn [andb]. rewrite !andb_assoc. reflexivity.
  - subst hdr. unfold l4_copy. fold l4.
    set (size := if proto =? IPPROTO_TCP
                 then Hdr.sizeof_tcphdr else Hdr.sizeof_udphdr).
    assert (Hsz : (4 <= size)%nat)
      by (subst size; destruct (proto =? IPPROTO_TCP); cbv; lia).
    rewrite bpf_probe_read_length.
    destruct (load_bytes m l4 size) as [bs|] eqn:Hl.
    + intros _.
      rewrite (bpf_probe_read_ok _ _ _ _ Hl); cbn [snd].
      split.
      * rewrite (field_of_copy m size l4 bs 0 2 Hl) by lia.
        rewrite Z.add_0_r; reflexivity.
      * apply (field_of_copy m size l4 bs 2 2 Hl); lia.
    + rewrite (bpf_probe_read_fault _ _ _ Hl); cbn [fst].
      unfold EFAULT; discriminate.
Qed.

Lemma filter_l3_and_l4_ports_witness :
  (cfg_sport (Sample.cfg 5 0 0 Sample.port_443 1) <> 0
   \/ cfg_dport (Sample.cfg 5 0 0 Sample.port_443 1) <> 0)
  /\ filter_l3_and_l4 Sample.layout false Sample.mem_ipv4_tcp Sample.skb
       (Sample.cfg 5 0 0 Sample.port_443 1) = true.
Proof.
  assert (Hp : cfg_sport (Sample.cfg 5 0 0 Sample.port_443 1) <> 0
               \/ cfg_dport (Sample.cfg 5 0 0 Sample.port_443 1) <> 0)
    by (right; cbn; discriminate).
  split; [exact Hp|].
  destruct (filter_l3_and_l4_ports
              Sample.layout false Sample.mem_ipv4_tcp Sample.skb _ Hp)
    as (_ & Htcp & _).
  rewrite Htcp; [reflexivity | left; reflexivity].
Defined.

(** ** The extractors *)

(** C8.  When the read of the object's device pointer faults, [set_meta]
    still fills mark, len and protocol from the object, and ifindex and mtu
    stay at zero.  In the build without CO-RE the two fields are not written
    at all; in the CO-RE build the chained read goes on through the zeroed
    pointer, and leaves zero as the kernel lets nothing be read there. *)
Theorem set_meta_dev_fault
    (K : kernel_layout) (core : bool) (m : memory) (skb : Z) (meta : skb_meta) :
  load_bytes m (ptr_add skb (sk_buff_dev K)) 8 = None ->
  (core = true ->
   load_bytes m (ptr_add 0 (net_device_ifindex K)) 4 = None
   /\ load_bytes m (ptr_add 0 (net_device_mtu K)) 4 = None) ->
  let meta' := set_meta K core m skb meta in
  meta_mark meta' = skb_field core m skb (sk_buff_mark K) 4
  /\ meta_len meta' = skb_field core m skb (sk_buff_len K) 4
  /\ meta_protocol meta' = skb_field core m skb (sk_buff_protocol K) 2
  /\ (meta_ifindex meta = 0 -> meta_ifindex meta' = 0)
  /\ (meta_mtu meta = 0 -> meta_mtu meta' = 0)
  /\ (core = false ->
      meta_ifindex meta' = meta_ifindex meta /\ meta_mtu meta' = meta_mtu meta).
Proof.
  intros Hdev Hnull meta'; subst meta'.
  unfold set_meta, skb_field.
  destruct core.
  - destruct (Hnull eq_refl) as [Hi Hm].
    unfold BPF_CORE_READ2, bpf_core_read.
    rewrite (bpf_probe_read_fault _ _ _ Hdev); cbn [snd].
    unfold zeroes; rewrite le_combine_0.
    rewrite (bpf_probe_read_fault _ _ _ Hi), (bpf_probe_read_fault _ _ _ Hm).
    cbn [snd]; unfold zeroes; rewrite !le_combine_0.
    cbn; repeat split; try reflexivity; intros; discriminate.
  - rewrite (bpf_probe_read_fault _ _ _ Hdev).
    cbn; repeat split; try reflexivity; intros; assumption.
Qed.

Lemma set_meta_dev_fault_witness :
  load_bytes Sample.mem_no_dev
    (ptr_add Sample.skb (sk_buff_dev Sample.layout)) 8 = None
  /\ meta_mark (set_meta Sample.layout true Sample.mem_no_dev Sample.skb
                  skb_meta_zero) = 5
  /\ meta_ifindex (set_meta Sample.layout true Sample.mem_no_dev Sample.skb
                     skb_meta_zero) = 0.
Proof.
  assert (Hdev : load_bytes Sample.mem_no_dev
                   (ptr_add Sample.skb (sk_buff_dev Sample.layout)) 8 = None)
    by (vm_compute; reflexivity).
  assert (Hnull : true = true ->
            load_bytes Sample.mem_no_dev
              (ptr_add 0 (net_device_ifindex Sample.layout)) 4 = None
            /\ load_bytes Sample.mem_no_dev
                 (ptr_add 0 (net_device_mtu Sample.layout)) 4 = None)
    by (intros _; split; vm_compute; reflexivity).
  destruct (set_meta_dev_fault Sample.layout true Sample.mem_no_dev
              Sample.skb skb_meta_zero Hdev Hnull)
    as (Hmark & _ & _ & Hifx & _).
  split; [exact Hdev|]. split.
  - rewrite Hmark; vm_compute; reflexivity.
  - apply Hifx; reflexivity.
Defined.

(** The fields of the tuple after [set_tuple], one by one. *)
Lemma set_tuple_proto_eq
    (K : kernel_layout) (core : bool) (m : memory) (skb : Z) (tpl : tuple) :
  tuple_proto (set_tuple K core m skb tpl) =
    read_scalar m 1 (ptr_add (l3_header K core m skb) Hdr.iphdr_protocol).
Proof.
  unfold set_tuple; cbv zeta.
  fold (l3_header K core m skb).
  repeat match goal with
         | |- context [if ?b then _ else _] => destruct b
         end; reflexivity.
Qed.

Lemma set_tuple_addrs_eq
    (K : kernel_layout) (core : bool) (m : memory) (skb : Z) (tpl : tuple) :
  let l3 := l3_header K core m skb in
  let t := set_tuple K core m skb tpl in
  if ip_version K core m skb =? 4 then
    tuple_saddr t = read_scalar m 4 (ptr_add l3 Hdr.iphdr_saddr)
    /\ tuple_daddr t = read_scalar m 4 (ptr_add l3 Hdr.iphdr_daddr)
    /\ tuple_pad t =
         snd (bpf_probe_read m 4 (ptr_add l3 Hdr.iphdr_daddr))
         ++ skipn 4 (tuple_pad tpl)
  else
    tuple_saddr t = tuple_saddr tpl
    /\ tuple_daddr t = tuple_daddr tpl
    /\ tuple_pad t = tuple_pad tpl.
Proof.
  unfold set_tuple, ip_version; cbv zeta.
  fold (l3_header K core m skb).
  destruct (Z.shiftr (read_scalar m 1 (l3_header K core m skb)) 4 =? 4);
    repeat match goal with
           | |- context [if ?b then _ else _] => destruct b
           end;
    cbn [tuple_saddr tuple_daddr tuple_pad set_tuple_saddr set_tuple_daddr
         set_tuple_pad set_tuple_sport set_tuple_dport set_tuple_proto];
    rewrite ?bpf_probe_read_length; repeat split; reflexivity.
Qed.

Lemma set_tuple_ports_eq
    (K : kernel_layout) (core : bool) (m : memory) (skb : Z) (tpl : tuple) :
  let l4 := l4_header K core m skb in
  let t := set_tuple K core m skb tpl in
  let proto := tuple_proto t in
  if (proto =? IPPROTO_TCP) || (proto =? IPPROTO_UDP) then
    tuple_sport t = read_scalar m 2 (ptr_add l4 0)
    /\ tuple_dport t = read_scalar m 2 (ptr_add l4 2)
  else
    tuple_sport t = tuple_sport tpl /\ tuple_dport t = tuple_dport tpl.
Proof.
  cbv zeta. rewrite set_tuple_proto_eq.
  unfold set_tuple; cbv zeta.
  fold (l3_header K core m skb). fold (l4_header K core m skb).
  set (t1 := if _ =? 4 then _ else _).
  assert (Hp : tuple_proto t1 =
               read_scalar m 1
                 (ptr_add (l3_header K core m skb) Hdr.iphdr_protocol))
    by (subst t1; destruct (_ =? 4); reflexivity).
  assert (Hs : tuple_sport t1 = tuple_sport tpl)
    by (subst t1; destruct (_ =? 4); reflexivity).
  assert (Hd : tuple_dport t1 = tuple_dport tpl)
    by (subst t1; destruct (_ =? 4); reflexivity).
  rewrite Hp.
  destruct (_ =? IPPROTO_TCP); [split; reflexivity|].
  destruct (_ =? IPPROTO_UDP); [split; reflexivity|].
  cbn [orb]. split; assumption.
Qed.

(** C5, as the program has it.  [set_tuple] records the protocol byte of
    the network header whatever the IP version.  The address fields are
    written only when the version nibble is 4.  The port fields are written
    whenever the recorded protocol byte is TCP or UDP, whatever the version,
    and otherwise kept.  A field whose read faults holds zero, so from a
    zeroed tuple every field that could not be read is zero. *)
Theorem set_tuple_fields
    (K : kernel_layout) (core : bool) (m : memory) (skb : Z) (tpl : tuple) :
  let l3 := l3_header K core m skb in
  let l4 := l4_header K core m skb in
  let t := set_tuple K core m skb tpl in
  let proto := read_scalar m 1 (ptr_add l3 Hdr.iphdr_protocol) in
  tuple_proto t = proto
  /\ (ip_version K core m skb = 4 ->
      tuple_saddr t = read_scalar m 4 (ptr_add l3 Hdr.iphdr_saddr)
      /\ tuple_daddr t = read_scalar m 4 (ptr_add l3 Hdr.iphdr_daddr))
  /\ (ip_version K core m skb <> 4 ->
      tuple_saddr t = tuple_saddr tpl /\ tuple_daddr t = tuple_daddr tpl
      /\ tuple_pad t = tuple_pad tpl)
  /\ (proto = IPPROTO_TCP \/ proto = IPPROTO_UDP ->
      tuple_sport t = read_scalar m 2 (ptr_add l4 0)
      /\ tuple_dport t = read_scalar m 2 (ptr_add l4 2))
  /\ (proto <> IPPROTO_TCP -> proto <> IPPROTO_UDP ->
      tuple_sport t = tuple_sport tpl /\ tuple_dport t = tuple_dport tpl)
  /\ (load_bytes m (ptr_add l3 Hdr.iphdr_protocol) 1 = None ->
      tuple_proto t = 0
      /\ tuple_sport t = tuple_sport tpl /\ tuple_dport t = tuple_dport tpl)
  /\ (load_bytes m l3 1 = None ->
      tuple_saddr t = tuple_saddr tpl /\ tuple_daddr t = tuple_daddr tpl)
  /\ (ip_version K core m skb = 4 ->
      (load_bytes m (ptr_add l3 Hdr.iphdr_saddr) 4 = None -> tuple_saddr t = 0)
      /\ (load_bytes m (ptr_add l3 Hdr.iphdr_daddr) 4 = None ->
          tuple_daddr t = 0))
  /\ (proto = IPPROTO_TCP \/ proto = IPPROTO_UDP ->
      (load_bytes m (ptr_add l4 0) 2 = None -> tuple_sport t = 0)
      /\ (load_bytes m (ptr_add l4 2) 2 = None -> tuple_dport t = 0)).
Proof.
  intros l3 l4 t proto.
  pose proof (set_tuple_proto_eq K core m skb tpl) as Hproto.
  pose proof (set_tuple_addrs_eq K core m skb tpl) as Haddr.
  pose proof (set_tuple_ports_eq K core m skb tpl) as Hport.
  cbv zeta in Haddr, Hport.
  fold t in Hproto, Haddr, Hport; fold l3 in Hproto, Haddr.
  fold l4 in Hport; fold proto in Hproto.
  rewrite Hproto in Hport.
  assert (Hv4 : ip_version K core m skb = 4 ->
                tuple_saddr t = read_scalar m 4 (ptr_add l3 Hdr.iphdr_saddr)
                /\ tuple_daddr t = read_scalar m 4 (ptr_add l3 Hdr.iphdr_daddr)).
  { intros Hv. rewrite Hv in Haddr. cbn in Haddr. tauto. }
  assert (Hnv4 : ip_version K core m skb <> 4 ->
                 tuple_saddr t = tuple_saddr tpl
                 /\ tuple_daddr t = tuple_daddr tpl
                 /\ tuple_pad t = tuple_pad tpl).
  { intros Hv. destruct (Z.eqb_spec (ip_version K core m skb) 4); tauto. }
  assert (Hl4 : proto = IPPROTO_TCP \/ proto = IPPROTO_UDP ->
                tuple_sport t = read_scalar m 2 (ptr_add l4 0)
                /\ tuple_dport t = read_scalar m 2 (ptr_add l4 2)).
  { intros Hp.
    destruct (Z.eqb_spec proto IPPROTO_TCP), (Z.eqb_spec proto IPPROTO_UDP);
      cbn [orb] in Hport; tauto. }
  assert (Hnl4 : proto <> IPPROTO_TCP -> proto <> IPPROTO_UDP ->
                 tuple_sport t = tuple_sport tpl
                 /\ tuple_dport t = tuple_dport tpl).
  { intros Ht Hu.
    destruct (Z.eqb_spec proto IPPROTO_TCP), (Z.eqb_spec proto IPPROTO_UDP);
      cbn [orb] in Hport; tauto. }
  repeat apply conj; try assumption.
  - intros Hf.
    assert (H0 : proto = 0) by (apply read_scalar_fault; exact Hf).
    split; [congruence|].
    apply Hnl4; rewrite H0; discriminate.
  - intros Hf.
    assert (Hv : ip_version K core m skb <> 4).
    { unfold ip_version. fold l3. rewrite (read_scalar_fault _ _ _ Hf).
      discriminate. }
    destruct (Hnv4 Hv) as (Hs & Hd & _). split; assumption.
  - intros Hv. destruct (Hv4 Hv) as [Hs Hd].
    split; intros Hf; [rewrite Hs | rewrite Hd]; apply read_scalar_fault, Hf.
  - intros Hp. destruct (Hl4 Hp) as [Hs Hd].
    split; intros Hf; [rewrite Hs | rewrite Hd]; apply read_scalar_fault, Hf.
Qed.

Lemma set_tuple_fields_witness :
  ip_version Sample.layout false Sample.mem_ipv4_tcp Sample.skb = 4
  /\ tuple_saddr (set_tuple Sample.layout false Sample.mem_ipv4_tcp Sample.skb
                    tuple_zero) = 0x0101a8c0
  /\ tuple_dport (set_tuple Sample.layout false Sample.mem_ipv4_tcp Sample.skb
                    tuple_zero) = Sample.port_443.
Proof.
  assert (Hv : ip_version Sample.layout false Sample.mem_ipv4_tcp Sample.skb = 4)
    by (vm_compute; reflexivity).
  destruct (set_tuple_fields Sample.layout false Sample.mem_ipv4_tcp
              Sample.skb tuple_zero)
    as (_ & Haddr & _ & Hport & _).
  split; [exact Hv|]. split.
  - destruct (Haddr Hv) as [-> _]; vm_compute; reflexivity.
  - destruct Hport as [_ ->]; [left|]; vm_compute; reflexivity.
Defined.

(** C5 as stated fails: on an IPv6 object whose source address has 06 as
    its second byte, the version nibble is 6 and both port fields are
    written all the same. *)
Lemma set_tuple_ports_ipv6_counterexample :
  ip_version Sample.layout false Sample.mem_ipv6_tcp Sample.skb = 6
  /\ tuple_sport tuple_zero = 0 /\ tuple_dport tuple_zero = 0
  /\ tuple_sport (set_tuple Sample.layout false Sample.mem_ipv6_tcp Sample.skb
                    tuple_zero) = 0x5c11
  /\ tuple_dport (set_tuple Sample.layout false Sample.mem_ipv6_tcp Sample.skb
                    tuple_zero) = 0xbb01.
Proof. repeat split; vm_compute; reflexivity. Qed.

(** C10, as the program has it.  When the version nibble is 4 and the four
    bytes of the destination address are readable, [set_tuple] puts them in
    [daddr] and again in the first four bytes of [pad], leaving the last
    three as they were; so from a zeroed tuple, [pad] is all-zero exactly
    when the destination address is 0.0.0.0. *)
Theorem set_tuple_pad_duplicates_daddr
    (K : kernel_layout) (core : bool) (m : memory) (skb : Z) (tpl : tuple)
    (bs : list byte) :
  ip_version K core m skb = 4 ->
  load_bytes m (ptr_add (l3_header K core m skb) Hdr.iphdr_daddr) 4 = Some bs ->
  let t := set_tuple K core m skb tpl in
  tuple_pad t = bs ++ skipn 4 (tuple_pad tpl)
  /\ firstn 4 (tuple_pad t) = bs
  /\ tuple_daddr t = le_combine bs
  /\ le_combine (firstn 4 (tuple_pad t)) = tuple_daddr t
  /\ (tuple_pad tpl = zeroes 7 ->
      (tuple_pad t = zeroes 7 <-> tuple_daddr t = 0)).
Proof.
  intros Hv Hl t.
  pose proof (set_tuple_addrs_eq K core m skb tpl) as Haddr.
  cbv zeta in Haddr. fold t in Haddr. rewrite Hv in Haddr.
  cbn [Z.eqb Pos.eqb] in Haddr.
  destruct Haddr as (_ & Hd & Hpad).
  rewrite (bpf_probe_read_ok _ _ _ _ Hl) in Hpad; cbn [snd] in Hpad.
  rewrite (read_scalar_ok _ _ _ _ Hl) in Hd.
  pose proof (load_bytes_length _ _ _ _ Hl) as Hlen.
  assert (Hfirst : firstn 4 (tuple_pad t) = bs).
  { rewrite Hpad, <- Hlen, firstn_app, Nat.sub_diag, firstn_all.
    cbn [firstn]; apply app_nil_r. }
  repeat apply conj; try assumption.
  - rewrite Hfirst, Hd; reflexivity.
  - intros Hz. rewrite Hpad, Hd, Hz. split.
    + intros Hp.
      assert (Hb : firstn 4 (bs ++ skipn 4 (zeroes 7)) = firstn 4 (zeroes 7))
        by (rewrite Hp; reflexivity).
      rewrite <- Hlen, firstn_app, Nat.sub_diag, firstn_all in Hb.
      cbn [firstn] in Hb; rewrite app_nil_r in Hb.
      rewrite Hb, Hlen; reflexivity.
    + intros H0. apply le_combine_eq_0 in H0.
      rewrite H0, Hlen; reflexivity.
Qed.

Lemma set_tuple_pad_duplicates_daddr_witness :
  ip_version Sample.layout false Sample.mem_ipv4_tcp Sample.skb = 4
  /\ tuple_pad (set_tuple Sample.layout false Sample.mem_ipv4_tcp Sample.skb
                  tuple_zero)
     = Sample.bytes [192; 168; 1; 2; 0; 0; 0].
Proof.
  assert (Hv : ip_version Sample.layout false Sample.mem_ipv4_tcp Sample.skb = 4)
    by (vm_compute; reflexivity).
  assert (Hl : load_bytes Sample.mem_ipv4_tcp
                 (ptr_add (l3_header Sample.layout false Sample.mem_ipv4_tcp
                             Sample.skb) Hdr.iphdr_daddr) 4
               = Some (Sample.bytes [192; 168; 1; 2]))
    by (vm_compute; reflexivity).
  split; [exact Hv|].
  destruct (set_tuple_pad_duplicates_daddr _ _ _ _ tuple_zero _ Hv Hl)
    as (-> & _).
  vm_compute; reflexivity.
Defined.

(** C10 as stated fails: an IPv4 object sent to 0.0.0.0 has a readable
    destination address, and the tuple's [pad] stays all-zero. *)
Lemma set_tuple_pad_zero_counterexample :
  ip_version Sample.layout false Sample.mem_ipv4_udp_to_zero Sample.skb = 4
  /\ fst (bpf_probe_read Sample.mem_ipv4_udp_to_zero 4
            (ptr_add (l3_header Sample.layout false Sample.mem_ipv4_udp_to_zero
                        Sample.skb) Hdr.iphdr_daddr)) = 0
  /\ tuple_pad (set_tuple Sample.layout false Sample.mem_ipv4_udp_to_zero
                  Sample.skb tuple_zero) = zeroes 7.
Proof. repeat split; vm_compute; reflexivity. Qed.

(** ** The dump ring *)

Lemma dump_slot_key (n : Z) : wrap 32 (n mod 256) = n mod 256.
Proof.
  unfold wrap. apply Z.mod_small.
  pose proof (Z.mod_pos_bound n 256 ltac:(lia)). lia.
Qed.

Lemma dump_slot_in_map (n : Z) (l : list (list byte)) :
  length l = 256%nat -> exists buf, nth_error l (Z.to_nat (n mod 256)) = Some buf.
Proof.
  intros Hlen.
  destruct (nth_error l (Z.to_nat (n mod 256))) as [buf|] eqn:Hn; [eauto|].
  apply nth_error_None in Hn.
  pose proof (Z.mod_pos_bound n 256 ltac:(lia)). lia.
Qed.

(** C7.  In a build with the dump ring, a call of [set_skb_btf] that finds
    the counter at [n] advances it and renders into slot [n mod 256] of the
    256-entry map, and reports that index when the rendering succeeds.  So
    a call finding the counter 256 slots further on, as the 257th call does
    relative to the first, lands on the same slot. *)
Theorem set_skb_btf_slot (E : helpers) (skb eid : Z) (st : state) :
  length (print_skb_map st) = 256%nat ->
  let n := print_skb_id st in
  (exists buf,
     nth_error (print_skb_map st) (Z.to_nat (n mod 256)) = Some buf
     /\ set_skb_btf true E skb eid st =
          ({| print_skb_id := wrap 64 (n + 1);
              print_skb_map :=
                list_set (print_skb_map st) (Z.to_nat (n mod 256))
                         (snd (bpf_snprintf_btf E skb buf));
              events := events st |},
           if fst (bpf_snprintf_btf E skb buf) <? 0 then eid else n mod 256))
  /\ ((forall buf, 0 <= fst (bpf_snprintf_btf E skb buf)) ->
      snd (set_skb_btf true E skb eid st) = n mod 256
      /\ forall st' : state,
           length (print_skb_map st') = 256%nat ->
           print_skb_id st' = n + 256 ->
           snd (set_skb_btf true E skb eid st')
           = snd (set_skb_btf true E skb eid st)).
Proof.
  intros Hlen n.
  assert (Hchar : forall s : state,
            length (print_skb_map s) = 256%nat ->
            exists buf,
              nth_error (print_skb_map s) (Z.to_nat (print_skb_id s mod 256))
              = Some buf
              /\ set_skb_btf true E skb eid s =
                   ({| print_skb_id := wrap 64 (print_skb_id s + 1);
                       print_skb_map :=
                         list_set (print_skb_map s)
                                  (Z.to_nat (print_skb_id s mod 256))
                                  (snd (bpf_snprintf_btf E skb buf));
                       events := events s |},
                    if fst (bpf_snprintf_btf E skb buf) <? 0
                    then eid else print_skb_id s mod 256)).
  { intros s Hs.
    destruct (dump_slot_in_map (print_skb_id s) _ Hs) as [buf Hbuf].
    exists buf; split; [exact Hbuf|].
    unfold set_skb_btf, fetch_and_add_print_skb_id.
    cbn [print_skb_map]. rewrite dump_slot_key, Hbuf.
    destruct (bpf_snprintf_btf E skb buf) as [rc str'].
    cbn [fst snd]. unfold write_print_skb_map; cbn [print_skb_id print_skb_map events].
    destruct (rc <? 0); reflexivity. }
  assert (Hid : (forall buf, 0 <= fst (bpf_snprintf_btf E skb buf)) ->
                forall s : state,
                  length (print_skb_map s) = 256%nat ->
                  snd (set_skb_btf true E skb eid s) = print_skb_id s mod 256).
  { intros Hok s Hs.
    destruct (Hchar s Hs) as (buf & _ & ->). cbn [snd].
    destruct (Z.ltb_spec (fst (bpf_snprintf_btf E skb buf)) 0) as [Hneg|_];
      [|reflexivity].
    specialize (Hok buf); lia. }
  split; [exact (Hchar st Hlen)|].
  intros Hok. split; [exact (Hid Hok st Hlen)|].
  intros st' Hlen' Hn'.
  rewrite (Hid Hok st' Hlen'), (Hid Hok st Hlen), Hn'.
  fold n. replace (n + 256) with (n + 1 * 256) by lia.
  apply Z.mod_add; lia.
Qed.

Lemma set_skb_btf_slot_witness :
  length (print_skb_map (Sample.st0 0)) = 256%nat
  /\ snd (set_skb_btf true (Sample.env Sample.mem_ipv4_tcp None) Sample.skb 0
            (Sample.st0 256))
     = snd (set_skb_btf true (Sample.env Sample.mem_ipv4_tcp None) Sample.skb 0
              (Sample.st0 0)).
Proof.
  assert (Hlen : forall n, length (print_skb_map (Sample.st0 n)) = 256%nat)
    by (intros n; reflexivity).
  split; [exact (Hlen 0)|].
  destruct (set_skb_btf_slot (Sample.env Sample.mem_ipv4_tcp None) Sample.skb 0
              (Sample.st0 0) (Hlen 0)) as (_ & Hwrap).
  destruct Hwrap as (_ & Hsame).
  - intros buf; cbn; lia.
  - apply Hsame; [exact (Hlen 256) | reflexivity].
Defined.

(** ** The handler *)

(** C1.  When the configuration lookup returns nothing, [handle_everything]
    leaves the dump counter and the dump slots alone and hands exactly one
    record to the events channel: the process id, the probe address, the
    object address and the timestamp are set, and the type, the dump slot id,
    the metadata, the tuple and the stack id are those of the zeroed event. *)
Theorem handle_everything_no_config
    (K : kernel_layout) (core OUTPUT_SKB : bool) (E : helpers)
    (skb : Z) (ctx : pt_regs) (st : state) :
  cfg_map_lookup E = None ->
  handle_everything K core OUTPUT_SKB E skb ctx st =
    (0,
     {| print_skb_id := print_skb_id st;
        print_skb_map := print_skb_map st;
        events :=
          events st
          ++ [ {| ev_pid := wrap 32 (bpf_get_current_pid_tgid E);
                  ev_type := 0;
                  ev_addr := PT_REGS_IP ctx;
                  ev_skb_addr := skb;
                  ev_ts := bpf_ktime_get_ns E;
                  ev_print_skb_id := 0;
                  ev_meta := skb_meta_zero;
                  ev_tuple := tuple_zero;
                  ev_print_stack_id := 0 |} ] |}).
Proof.
  intros Hcfg. unfold handle_everything. rewrite Hcfg. reflexivity.
Qed.

Lemma handle_everything_no_config_witness :
  cfg_map_lookup (Sample.env Sample.mem_ipv4_tcp None) = None
  /\ length (events (snd (handle_everything Sample.layout false true
                            (Sample.env Sample.mem_ipv4_tcp None)
                            Sample.skb (Sample.regs Sample.skb 0)
                            (Sample.st0 7)))) = 1%nat.
Proof.
  split; [reflexivity|].
  rewrite (handle_everything_no_config Sample.layout false true
             (Sample.env Sample.mem_ipv4_tcp None) Sample.skb
             (Sample.regs Sample.skb 0) (Sample.st0 7) eq_refl).
  reflexivity.
Defined.

(** C6.  When a configuration is present and [filter] rejects the object,
    [handle_everything] returns with the state as it found it: no record on
    the events channel, the dump counter not advanced, no dump slot written;
    and this whatever the output flags of the configuration ask for. *)
Theorem handle_everything_rejected
    (K : kernel_layout) (core OUTPUT_SKB : bool) (E : helpers)
    (skb : Z) (ctx : pt_regs) (st : state) (cfg : config) :
  cfg_map_lookup E = Some cfg ->
  filter K core (kmem E) skb cfg = false ->
  handle_everything K core OUTPUT_SKB E skb ctx st = (0, st).
Proof.
  intros Hcfg Hrej. unfold handle_everything. rewrite Hcfg, Hrej. reflexivity.
Qed.

Lemma handle_everything_rejected_witness :
  filter Sample.layout false Sample.mem_ipv4_tcp Sample.skb
    (Sample.cfg 6 0 0 Sample.port_443 1) = false
  /\ handle_everything Sample.layout false true
       (Sample.env Sample.mem_ipv4_tcp
          (Some (Sample.cfg 6 0 0 Sample.port_443 1)))
       Sample.skb (Sample.regs Sample.skb 0) (Sample.st0 7)
     = (0, Sample.st0 7).
Proof.
  assert (Hrej : filter Sample.layout false Sample.mem_ipv4_tcp Sample.skb
                   (Sample.cfg 6 0 0 Sample.port_443 1) = false)
    by (vm_compute; reflexivity).
  split; [exact Hrej|].
  exact (handle_everything_rejected Sample.layout false true
           (Sample.env Sample.mem_ipv4_tcp
              (Some (Sample.cfg 6 0 0 Sample.port_443 1)))
           Sample.skb (Sample.regs Sample.skb 0) (Sample.st0 7) _
           eq_refl Hrej).
Defined.

(** ** The entry points *)

(** What [handle_everything] takes from its context: the instruction
    pointer and the stack id the kernel computes for it. *)
Lemma handle_everything_context
    (K : kernel_layout) (core OUTPUT_SKB : bool) (E : helpers)
    (skb : Z) (ctx ctx' : pt_regs) (st : state) :
  PT_REGS_IP ctx = PT_REGS_IP ctx' ->
  bpf_get_stackid E ctx = bpf_get_stackid E ctx' ->
  handle_everything K core OUTPUT_SKB E skb ctx st
  = handle_everything K core OUTPUT_SKB E skb ctx' st.
Proof.
  intros Hip Hstack.
  unfold handle_everything, set_output, stamp_and_emit.
  rewrite Hip, Hstack. reflexivity.
Qed.

(** C9.  Each of the five entry points reads the object pointer from its
    own argument register and calls [handle_everything] on it.  So two
    entry points whose registers hold the same pointer run the same handler
    on the same pointer, each with its context; and when the contexts also
    agree on what the handler takes from them they return the same result
    and leave the same state. *)
Theorem kprobe_skb_same_handler
    (K : kernel_layout) (core OUTPUT_SKB : bool) (E : helpers)
    (i j : arg_pos) (ctx_i ctx_j : pt_regs) (st : state) :
  PT_REGS_PARM i ctx_i = PT_REGS_PARM j ctx_j ->
  let skb := PT_REGS_PARM i ctx_i in
  kprobe_skb K core OUTPUT_SKB E i ctx_i st
  = handle_everything K core OUTPUT_SKB E skb ctx_i st
  /\ kprobe_skb K core OUTPUT_SKB E j ctx_j st
     = handle_everything K core OUTPUT_SKB E skb ctx_j st
  /\ (PT_REGS_IP ctx_i = PT_REGS_IP ctx_j ->
      bpf_get_stackid E ctx_i = bpf_get_stackid E ctx_j ->
      kprobe_skb K core OUTPUT_SKB E i ctx_i st
      = kprobe_skb K core OUTPUT_SKB E j ctx_j st).
Proof.
  intros Hptr skb.
  assert (Hi : kprobe_skb K core OUTPUT_SKB E i ctx_i st
               = handle_everything K core OUTPUT_SKB E skb ctx_i st)
    by (subst skb; destruct i; reflexivity).
  assert (Hj : kprobe_skb K core OUTPUT_SKB E j ctx_j st
               = handle_everything K core OUTPUT_SKB E skb ctx_j st)
    by (subst skb; rewrite Hptr; destruct j; reflexivity).
  repeat split; try assumption.
  intros Hip Hstack. rewrite Hi, Hj.
  apply handle_everything_context; assumption.
Qed.

Lemma kprobe_skb_same_handler_witness :
  PT_REGS_PARM Arg1 (Sample.regs Sample.skb 0)
  = PT_REGS_PARM Arg2 (Sample.regs 0 Sample.skb)
  /\ kprobe_skb Sample.layout false true
       (Sample.env Sample.mem_ipv4_tcp
          (Some (Sample.cfg 5 0 0 Sample.port_443 1)))
       Arg1 (Sample.regs Sample.skb 0) (Sample.st0 0)
     = kprobe_skb Sample.layout false true
         (Sample.env Sample.mem_ipv4_tcp
            (Some (Sample.cfg 5 0 0 Sample.port_443 1)))
         Arg2 (Sample.regs 0 Sample.skb) (Sample.st0 0).
Proof.
  assert (Hptr : PT_REGS_PARM Arg1 (Sample.regs Sample.skb 0)
                 = PT_REGS_PARM Arg2 (Sample.regs 0 Sample.skb))
    by reflexivity.
  split; [exact Hptr|].
  destruct (kprobe_skb_same_handler Sample.layout false true
              (Sample.env Sample.mem_ipv4_tcp
                 (Some (Sample.cfg 5 0 0 Sample.port_443 1)))
              Arg1 Arg2 _ _ (Sample.st0 0) Hptr) as (_ & _ & Hsame).
  apply Hsame; reflexivity.
Defined.

(** ** Scenarios *)

(** An IPv4/TCP object to port 443 passes a destination-port filter for 443
    and fails one for another port, or one for UDP. *)
Example filter_dport_accepts :
  filter Sample.layout false Sample.mem_ipv4_tcp Sample.skb
    (Sample.cfg 0 0 0 Sample.port_443 0) = true.
Proof. vm_compute; reflexivity. Qed.

Example filter_dport_rejects :
  filter Sample.layout false Sample.mem_ipv4_tcp Sample.skb
    (Sample.cfg 0 0 0 0xbc01 0) = false.
Proof. vm_compute; reflexivity. Qed.

Example filter_l4_proto_rejects :
  filter Sample.layout false Sample.mem_ipv4_tcp Sample.skb
    (Sample.cfg 0 IPPROTO_UDP 0 Sample.port_443 0) = false.
Proof. vm_compute; reflexivity. Qed.

(** Mark 5, 192.168.1.1:4444 to 192.168.1.2:443 over TCP: a configuration
    asking for mark 5 and port 443 gets one event carrying the tuple, one
    asking for mark 6 gets none. *)
Example end_to_end_accepted :
  map ev_tuple
    (events (snd (handle_everything Sample.layout false true
                    (Sample.env Sample.mem_ipv4_tcp
                       (Some (Sample.cfg 5 0 0 Sample.port_443 1)))
                    Sample.skb (Sample.regs Sample.skb 0) (Sample.st0 0))))
  = [ {| tuple_saddr := 0x0101a8c0; tuple_daddr := 0x0201a8c0;
         tuple_sport := 0x5c11; tuple_dport := 0xbb01;
         tuple_proto := IPPROTO_TCP;
         tuple_pad := Sample.bytes [192; 168; 1; 2; 0; 0; 0] |} ].
Proof. vm_compute; reflexivity. Qed.

Example end_to_end_rejected :
  events (snd (handle_everything Sample.layout false true
                 (Sample.env Sample.mem_ipv4_tcp
                    (Some (Sample.cfg 6 0 0 Sample.port_443 1)))
                 Sample.skb (Sample.regs Sample.skb 0) (Sample.st0 0)))
  = [].
Proof. vm_compute; reflexivity. Qed.

(** * Further properties *)

(** ** Reads *)

Lemma skb_field_eq (core : bool) (m : memory) (skb off : Z) (size : nat) :
  skb_field core m skb off size = read_scalar m size (ptr_add skb off).
Proof. destruct core; reflexivity. Qed.

Lemma skipn_zeroes (k n : nat) : skipn k (zeroes n) = zeroes (n - k).
Proof.
  revert n; induction k as [|k IH]; intros n.
  - rewrite Nat.sub_0_r; reflexivity.
  - destruct n as [|n]; [reflexivity|]. cbn. apply IH.
Qed.

Lemma firstn_zeroes (k n : nat) : firstn k (zeroes n) = zeroes (Nat.min k n).
Proof.
  revert n; induction k as [|k IH]; intros n; [reflexivity|].
  destruct n as [|n]; [reflexivity|].
  cbn. f_equal. apply IH.
Qed.

Lemma field_zeroes (off : Z) (len n : nat) : field off len (zeroes n) = 0.
Proof.
  unfold field. rewrite skipn_zeroes, firstn_zeroes. apply le_combine_0.
Qed.

(** A non-zero field of a struct copy shows that the copy did not fault. *)
Lemma field_nonzero_readable (m : memory) (n : nat) (a off : Z) (len : nat) :
  field off len (snd (bpf_probe_read m n a)) <> 0 ->
  exists bs, load_bytes m a n = Some bs.
Proof.
  intros H. destruct (load_bytes m a n) as [bs|] eqn:Hl; [eauto|].
  rewrite (bpf_probe_read_fault _ _ _ Hl) in H. cbn [snd] in H.
  rewrite field_zeroes in H. congruence.
Qed.

Lemma matches_meets (c v : Z) : matches c v = true <-> meets c v.
Proof.
  unfold matches, meets.
  rewrite orb_true_iff, !Z.eqb_eq. reflexivity.
Qed.

(** ** More on the filter *)

(** The port stage of [filter_l3_and_l4], as a proposition. *)
Lemma port_stage_iff (cfg : config) (proto : Z) (hdr : list byte) :
  (if truthy (cfg_dport cfg) || truthy (cfg_sport cfg)
   then ((proto =? IPPROTO_TCP) || (proto =? IPPROTO_UDP))
        && matches (cfg_sport cfg) (field 0 2 hdr)
        && matches (cfg_dport cfg) (field 2 2 hdr)
   else true) = true
  <-> (cfg_sport cfg = 0 /\ cfg_dport cfg = 0)
      \/ ((proto = IPPROTO_TCP \/ proto = IPPROTO_UDP)
          /\ meets (cfg_sport cfg) (field 0 2 hdr)
          /\ meets (cfg_dport cfg) (field 2 2 hdr)).
Proof.
  destruct (truthy (cfg_dport cfg) || truthy (cfg_sport cfg)) eqn:Hg.
  - rewrite !andb_true_iff, orb_true_iff, !Z.eqb_eq, !matches_meets.
    apply orb_true_iff in Hg. rewrite !truthy_true in Hg.
    split; [intros ((Hp & Hs) & Hd); right; tauto|].
    intros [[Hs Hd]|(Hp & Hs & Hd)]; [exfalso; tauto | tauto].
  - apply orb_false_iff in Hg. rewrite !truthy_false in Hg.
    split; [intros _; left; tauto | reflexivity].
Qed.

(** What an accepted object looks like, for the rejection proofs below. *)
Lemma filter_l3_and_l4_accepted
    (K : kernel_layout) (core : bool) (m : memory) (skb : Z) (cfg : config) :
  tuple_filter_nonzero cfg ->
  filter_l3_and_l4 K core m skb cfg = true ->
  ip_version K core m skb = 4
  /\ meets (v4addr (cfg_saddr cfg))
           (field Hdr.iphdr_saddr 4 (ipv4_header K core m skb))
  /\ meets (v4addr (cfg_daddr cfg))
           (field Hdr.iphdr_daddr 4 (ipv4_header K core m skb))
  /\ meets (cfg_l4_proto cfg) (ipv4_protocol K core m skb)
  /\ ((cfg_sport cfg = 0 /\ cfg_dport cfg = 0)
      \/ ((ipv4_protocol K core m skb = IPPROTO_TCP
           \/ ipv4_protocol K core m skb = IPPROTO_UDP)
          /\ meets (cfg_sport cfg)
               (field 0 2 (l4_copy K core m (ipv4_protocol K core m skb) skb))
          /\ meets (cfg_dport cfg)
               (field 2 2 (l4_copy K core m (ipv4_protocol K core m skb) skb)))).
Proof.
  intros Hnz.
  rewrite (filter_l3_and_l4_slow_path K core m skb cfg Hnz).
  cbv zeta. unfold l3_pass.
  rewrite !andb_true_iff, !matches_meets, Z.eqb_eq, port_stage_iff.
  tauto.
Qed.

(** X1.  [filter_mark] lets every object through when no mark is
    configured.  With a mark configured it compares with the four bytes of
    the object's mark field, so an object whose mark cannot be read is
    rejected. *)
Theorem filter_mark_cases
    (K : kernel_layout) (core : bool) (m : memory) (skb : Z) (cfg : config) :
  (cfg_mark cfg = 0 -> filter_mark K core m skb cfg = true)
  /\ (cfg_mark cfg <> 0 ->
      load_bytes m (ptr_add skb (sk_buff_mark K)) 4 = None ->
      filter_mark K core m skb cfg = false)
  /\ (forall bs,
        cfg_mark cfg <> 0 ->
        load_bytes m (ptr_add skb (sk_buff_mark K)) 4 = Some bs ->
        filter_mark K core m skb cfg = (le_combine bs =? cfg_mark cfg)).
Proof.
  unfold filter_mark. rewrite skb_field_eq.
  repeat split.
  - intros ->. reflexivity.
  - intros Hm Hf.
    apply truthy_true in Hm. rewrite Hm, (read_scalar_fault _ _ _ Hf).
    apply Z.eqb_neq. apply truthy_true in Hm. congruence.
  - intros bs Hm Hl.
    apply truthy_true in Hm. rewrite Hm, (read_scalar_ok _ _ _ _ Hl).
    reflexivity.
Qed.

(** X2.  With some tuple field configured, [filter_l3_and_l4] accepts
    exactly the objects whose network header starts with version 4, whose
    copied IPv4 header meets each configured address and the configured
    protocol, and, when a port is configured, whose protocol is TCP or UDP
    with the copied transport header meeting each configured port. *)
Theorem filter_l3_and_l4_accepts_iff
    (K : kernel_layout) (core : bool) (m : memory) (skb : Z) (cfg : config) :
  tuple_filter_nonzero cfg ->
  let ip4 := ipv4_header K core m skb in
  let proto := ipv4_protocol K core m skb in
  let hdr := l4_copy K core m proto skb in
  filter_l3_and_l4 K core m skb cfg = true
  <-> ip_version K core m skb = 4
      /\ meets (v4addr (cfg_saddr cfg)) (field Hdr.iphdr_saddr 4 ip4)
      /\ meets (v4addr (cfg_daddr cfg)) (field Hdr.iphdr_daddr 4 ip4)
      /\ meets (cfg_l4_proto cfg) proto
      /\ ((cfg_sport cfg = 0 /\ cfg_dport cfg = 0)
          \/ ((proto = IPPROTO_TCP \/ proto = IPPROTO_UDP)
              /\ meets (cfg_sport cfg) (field 0 2 hdr)
              /\ meets (cfg_dport cfg) (field 2 2 hdr))).
Proof.
  intros Hnz ip4 proto hdr.
  rewrite (filter_l3_and_l4_slow_path K core m skb cfg Hnz).
  cbv zeta. fold proto. fold hdr.
  unfold l3_pass. fold ip4. fold proto.
  rewrite !andb_true_iff, !matches_meets, Z.eqb_eq.
  rewrite port_stage_iff. tauto.
Qed.

Lemma filter_l3_and_l4_accepts_iff_witness :
  tuple_filter_nonzero Sample2.cfg_full
  /\ ipv4_protocol Sample.layout false Sample.mem_ipv4_tcp Sample.skb
     = IPPROTO_TCP.
Proof.
  assert (Hnz : tuple_filter_nonzero Sample2.cfg_full)
    by (left; cbn; discriminate).
  split; [exact Hnz|].
  pose proof (proj1 (filter_l3_and_l4_accepts_iff Sample.layout false
                       Sample.mem_ipv4_tcp Sample.skb Sample2.cfg_full Hnz))
    as H.
  cbv zeta in H.
  destruct (H ltac:(vm_compute; reflexivity)) as (_ & _ & _ & Hp & _).
  destruct Hp as [Hp|Hp]; [cbn in Hp; discriminate | exact Hp].
Defined.

(** X3.  The fast path looks at all sixteen bytes of each address union,
    the comparisons only at the first four.  So a configuration whose only
    non-zero tuple bytes lie in the last twelve bytes of an address union
    (an IPv6 address, say) compares no field at all, and still rejects every
    object that is not IPv4. *)
Theorem filter_l3_and_l4_high_address_bytes
    (K : kernel_layout) (core : bool) (m : memory) (skb : Z) (cfg : config) :
  tuple_filter_nonzero cfg ->
  v4addr (cfg_saddr cfg) = 0 -> v4addr (cfg_daddr cfg) = 0 ->
  cfg_l4_proto cfg = 0 -> cfg_sport cfg = 0 -> cfg_dport cfg = 0 ->
  filter_l3_and_l4 K core m skb cfg = (ip_version K core m skb =? 4).
Proof.
  intros Hnz Hs Hd Hp Hsp Hdp.
  rewrite (filter_l3_and_l4_slow_path K core m skb cfg Hnz).
  unfold l3_pass, matches. rewrite Hs, Hd, Hp, Hsp, Hdp.
  cbn. rewrite !andb_true_r. reflexivity.
Qed.

Lemma filter_l3_and_l4_high_address_bytes_witness :
  tuple_filter_nonzero Sample2.cfg_high_addr
  /\ filter_l3_and_l4 Sample.layout false Sample.mem_ipv4_tcp Sample.skb
       Sample2.cfg_high_addr = true
  /\ filter_l3_and_l4 Sample.layout false Sample.mem_ipv6_tcp Sample.skb
       Sample2.cfg_high_addr = false.
Proof.
  assert (Hnz : tuple_filter_nonzero Sample2.cfg_high_addr)
    by (right; left; cbn; discriminate).
  split; [exact Hnz|].
  split;
    rewrite (filter_l3_and_l4_high_address_bytes _ _ _ _ _ Hnz
               eq_refl eq_refl eq_refl eq_refl eq_refl);
    vm_compute; reflexivity.
Defined.

(** X4.  When the 20-byte copy of the IPv4 header faults, every
    configuration that compares an address, the protocol or a port rejects
    the object, even if its first byte is readable and says version 4. *)
Theorem filter_l3_and_l4_iphdr_fault
    (K : kernel_layout) (core : bool) (m : memory) (skb : Z) (cfg : config) :
  load_bytes m (l3_header K core m skb) Hdr.sizeof_iphdr = None ->
  v4addr (cfg_saddr cfg) <> 0 \/ v4addr (cfg_daddr cfg) <> 0
  \/ cfg_l4_proto cfg <> 0 \/ cfg_sport cfg <> 0 \/ cfg_dport cfg <> 0 ->
  filter_l3_and_l4 K core m skb cfg = false.
Proof.
  intros Hf Hcfg.
  assert (Hnz : tuple_filter_nonzero cfg).
  { unfold tuple_filter_nonzero, v4addr, wrap in *.
    destruct (Z.eq_dec (addr_pad0 (cfg_saddr cfg)) 0) as [E1|E1];
      [rewrite E1 in Hcfg|tauto].
    destruct (Z.eq_dec (addr_pad0 (cfg_daddr cfg)) 0) as [E2|E2];
      [rewrite E2 in Hcfg|tauto].
    cbn in Hcfg. tauto. }
  apply not_true_is_false. intros Hacc.
  apply (filter_l3_and_l4_accepted K core m skb cfg Hnz) in Hacc.
  unfold ipv4_protocol, ipv4_header in Hacc.
  rewrite (bpf_probe_read_fault _ _ _ Hf) in Hacc. cbn [snd] in Hacc.
  rewrite !field_zeroes in Hacc.
  destruct Hacc as (_ & Hs & Hd & Hp & Hports).
  unfold meets in *. unfold IPPROTO_TCP, IPPROTO_UDP in Hports.
  intuition congruence.
Qed.

Lemma filter_l3_and_l4_iphdr_fault_witness :
  load_bytes Sample.mem_empty
    (l3_header Sample.layout false Sample.mem_empty Sample.skb)
    Hdr.sizeof_iphdr = None
  /\ filter_l3_and_l4 Sample.layout false Sample.mem_empty Sample.skb
       Sample2.cfg_full = false.
Proof.
  assert (Hf : load_bytes Sample.mem_empty
                 (l3_header Sample.layout false Sample.mem_empty Sample.skb)
                 Hdr.sizeof_iphdr = None) by reflexivity.
  split; [exact Hf|].
  apply (filter_l3_and_l4_iphdr_fault _ _ _ _ _ Hf).
  left; cbn; discriminate.
Defined.

(** X5.  With a port configured, an object whose transport header cannot be
    copied in full (twenty bytes for TCP, eight for UDP) is rejected: the
    copy is zeroed and no configured port is zero. *)
Theorem filter_l3_and_l4_l4hdr_fault
    (K : kernel_layout) (core : bool) (m : memory) (skb : Z) (cfg : config) :
  cfg_sport cfg <> 0 \/ cfg_dport cfg <> 0 ->
  load_bytes m (l4_header K core m skb)
    (if ipv4_protocol K core m skb =? IPPROTO_TCP
     then Hdr.sizeof_tcphdr else Hdr.sizeof_udphdr) = None ->
  filter_l3_and_l4 K core m skb cfg = false.
Proof.
  intros Hport Hf.
  assert (Hnz : tuple_filter_nonzero cfg)
    by (unfold tuple_filter_nonzero; tauto).
  apply not_true_is_false. intros Hacc.
  apply (filter_l3_and_l4_accepted K core m skb cfg Hnz) in Hacc.
  unfold l4_copy in Hacc.
  rewrite (bpf_probe_read_fault _ _ _ Hf) in Hacc. cbn [snd] in Hacc.
  rewrite !field_zeroes in Hacc.
  destruct Hacc as (_ & _ & _ & _ & Hports).
  unfold meets in Hports. intuition congruence.
Qed.

Lemma filter_l3_and_l4_l4hdr_fault_witness :
  read_scalar Sample2.mem_tcp_truncated 2
    (l4_header Sample.layout false Sample2.mem_tcp_truncated Sample.skb + 2)
  = Sample.port_443
  /\ filter_l3_and_l4 Sample.layout false Sample2.mem_tcp_truncated Sample.skb
       (Sample.cfg 0 0 0 Sample.port_443 0) = false.
Proof.
  split; [vm_compute; reflexivity|].
  apply filter_l3_and_l4_l4hdr_fault.
  - right; cbn; discriminate.
  - vm_compute; reflexivity.
Defined.

(** ** Addresses *)

Lemma ptr_add_range (p off : Z) : 0 <= ptr_add p off < 2 ^ 64.
Proof. unfold ptr_add, wrap. apply Z.mod_pos_bound. lia. Qed.

Lemma region_get_range (bs : list byte) :
  forall base a b,
    region_get base bs a = Some b ->
    base <= a < base + Z.of_nat (length bs).
Proof.
  induction bs as [|x r IH]; intros base a b; cbn [region_get length].
  - discriminate.
  - destruct (Z.eqb_spec a base) as [->|Hne].
    + intros _. lia.
    + intros H. apply IH in H. lia.
Qed.

Lemma mem_of_wf (regions : list (Z * list byte)) :
  regions_in_range regions = true -> mem_wf (mem_of regions).
Proof.
  unfold regions_in_range, mem_wf.
  induction regions as [|[base bs] r IH]; cbn [forallb mem_of fst snd].
  - intros _ a H. congruence.
  - rewrite !andb_true_iff, Z.leb_le, Z.leb_le.
    intros [[Hlo Hhi] Hr] a.
    destruct (region_get base bs a) as [b|] eqn:Hg.
    + intros _. apply region_get_range in Hg. lia.
    + apply IH; assumption.
Qed.

(** Inside a readable range of a well-formed memory, pointer arithmetic
    does not wrap. *)
Lemma ptr_add_in_range (m : memory) (n : nat) (a : Z) (bs : list byte) (off : Z) :
  mem_wf m -> 0 <= a ->
  load_bytes m a n = Some bs ->
  0 <= off -> (Z.to_nat off < n)%nat ->
  ptr_add a off = a + off.
Proof.
  intros Hwf Ha Hl Hoff Hlt.
  pose proof (load_bytes_sub m n a bs (Z.to_nat off) 1 Hl ltac:(lia)) as Hs.
  rewrite Z2Nat.id in Hs by assumption.
  cbn [load_bytes] in Hs.
  assert (Hm : m (a + off) <> None)
    by (destruct (m (a + off)); [discriminate | discriminate Hs]).
  apply Hwf in Hm.
  unfold ptr_add, wrap. apply Z.mod_small. lia.
Qed.

(** A non-zero field of a struct copy is what a read of just that field,
    at its address, gives. *)
Lemma field_nonzero_ptr (m : memory) (n : nat) (a off : Z) (len : nat) :
  mem_wf m -> 0 <= a ->
  0 <= off -> (0 < len)%nat -> (Z.to_nat off + len <= n)%nat ->
  field off len (snd (bpf_probe_read m n a)) <> 0 ->
  field off len (snd (bpf_probe_read m n a))
  = read_scalar m len (ptr_add a off).
Proof.
  intros Hwf Ha Hoff Hlen Hle Hnz.
  destruct (field_nonzero_readable _ _ _ _ _ Hnz) as [bs Hl].
  rewrite (bpf_probe_read_ok _ _ _ _ Hl). cbn [snd].
  rewrite (ptr_add_in_range m n a bs off Hwf Ha Hl Hoff ltac:(lia)).
  apply (field_of_copy m n a bs off len Hl Hoff Hle).
Qed.

Lemma l3_header_nonneg (K : kernel_layout) (core : bool) (m : memory) (skb : Z) :
  0 <= l3_header K core m skb.
Proof. unfold l3_header. apply ptr_add_range. Qed.

Lemma l4_header_nonneg (K : kernel_layout) (core : bool) (m : memory) (skb : Z) :
  0 <= l4_header K core m skb.
Proof. unfold l4_header. apply ptr_add_range. Qed.

(** ** More on the extractors *)

Lemma set_meta_direct_fields
    (K : kernel_layout) (core : bool) (m : memory) (skb : Z) (meta : skb_meta) :
  meta_mark (set_meta K core m skb meta)
  = read_scalar m 4 (ptr_add skb (sk_buff_mark K))
  /\ meta_len (set_meta K core m skb meta)
     = read_scalar m 4 (ptr_add skb (sk_buff_len K))
  /\ meta_protocol (set_meta K core m skb meta)
     = read_scalar m 2 (ptr_add skb (sk_buff_protocol K))
  /\ meta_pad (set_meta K core m skb meta) = meta_pad meta.
Proof.
  unfold set_meta. destruct core.
  - repeat split; reflexivity.
  - destruct (bpf_probe_read m 8 (ptr_add skb (sk_buff_dev K))) as [rc dev].
    destruct (negb (truthy rc)); repeat split; reflexivity.
Qed.

(** X6.  When the object's device pointer is readable, [set_meta] fills all
    five fields, ifindex and mtu through that pointer, and the build with
    CO-RE reads and the build with plain probe reads produce the same
    metadata. *)
Theorem set_meta_dev_readable
    (K : kernel_layout) (core : bool) (m : memory) (skb : Z) (meta : skb_meta)
    (bs : list byte) :
  load_bytes m (ptr_add skb (sk_buff_dev K)) 8 = Some bs ->
  set_meta K core m skb meta =
    {| meta_mark := read_scalar m 4 (ptr_add skb (sk_buff_mark K));
       meta_ifindex :=
         read_scalar m 4 (ptr_add (le_combine bs) (net_device_ifindex K));
       meta_len := read_scalar m 4 (ptr_add skb (sk_buff_len K));
       meta_mtu :=
         read_scalar m 4 (ptr_add (le_combine bs) (net_device_mtu K));
       meta_protocol := read_scalar m 2 (ptr_add skb (sk_buff_protocol K));
       meta_pad := meta_pad meta |}
  /\ set_meta K true m skb meta = set_meta K false m skb meta.
Proof.
  intros Hl.
  assert (H : forall c,
            set_meta K c m skb meta =
              {| meta_mark := read_scalar m 4 (ptr_add skb (sk_buff_mark K));
                 meta_ifindex :=
                   read_scalar m 4
                     (ptr_add (le_combine bs) (net_device_ifindex K));
                 meta_len := read_scalar m 4 (ptr_add skb (sk_buff_len K));
                 meta_mtu :=
                   read_scalar m 4 (ptr_add (le_combine bs) (net_device_mtu K));
                 meta_protocol :=
                   read_scalar m 2 (ptr_add skb (sk_buff_protocol K));
                 meta_pad := meta_pad meta |}).
  { intros c. unfold set_meta. destruct c.
    - unfold BPF_CORE_READ2, BPF_CORE_READ, bpf_core_read.
      rewrite (bpf_probe_read_ok _ _ _ _ Hl). cbn [snd].
      reflexivity.
    - rewrite (bpf_probe_read_ok _ _ _ _ Hl). reflexivity. }
  split; [apply H|]. rewrite !H. reflexivity.
Qed.

Lemma set_meta_dev_readable_witness :
  load_bytes Sample.mem_ipv4_tcp
    (ptr_add Sample.skb (sk_buff_dev Sample.layout)) 8
  = Some (le_split 8 Sample.dev)
  /\ meta_mtu (set_meta Sample.layout true Sample.mem_ipv4_tcp Sample.skb
                 skb_meta_zero) = 1500.
Proof.
  assert (Hl : load_bytes Sample.mem_ipv4_tcp
                 (ptr_add Sample.skb (sk_buff_dev Sample.layout)) 8
               = Some (le_split 8 Sample.dev)) by (vm_compute; reflexivity).
  split; [exact Hl|].
  destruct (set_meta_dev_readable Sample.layout true Sample.mem_ipv4_tcp
              Sample.skb skb_meta_zero _ Hl) as [-> _].
  vm_compute; reflexivity.
Defined.

Lemma fits_le_combine (bs : list byte) (n : nat) :
  length bs = n -> fits (8 * Z.of_nat n) (le_combine bs).
Proof.
  intros <-. unfold fits. apply le_combine_bound.
Qed.

Lemma fits_read_scalar (m : memory) (n : nat) (a : Z) :
  fits (8 * Z.of_nat n) (read_scalar m n a).
Proof.
  unfold read_scalar. apply fits_le_combine, bpf_probe_read_length.
Qed.

Lemma fits_read_4 (m : memory) (a : Z) : fits 32 (read_scalar m 4 a).
Proof. exact (fits_read_scalar m 4 a). Qed.

Lemma fits_read_2 (m : memory) (a : Z) : fits 16 (read_scalar m 2 a).
Proof. exact (fits_read_scalar m 2 a). Qed.

Lemma fits_read_1 (m : memory) (a : Z) : fits 8 (read_scalar m 1 a).
Proof. exact (fits_read_scalar m 1 a). Qed.

(** [set_meta] keeps the metadata within its C types. *)
Lemma set_meta_wf
    (K : kernel_layout) (core : bool) (m : memory) (skb : Z) (meta : skb_meta) :
  skb_meta_wf meta -> skb_meta_wf (set_meta K core m skb meta).
Proof.
  intros (Hmark & Hifx & Hlen & Hmtu & Hproto).
  destruct (set_meta_direct_fields K core m skb meta) as (Em & El & Ep & _).
  assert (Hi : fits 32 (meta_ifindex (set_meta K core m skb meta))
               /\ fits 32 (meta_mtu (set_meta K core m skb meta))).
  { unfold set_meta. destruct core.
    - split; apply fits_read_4.
    - destruct (bpf_probe_read m 8 (ptr_add skb (sk_buff_dev K))) as [rc dev].
      destruct (negb (truthy rc)); split;
        try apply fits_read_4; assumption. }
  unfold skb_meta_wf. rewrite Em, El, Ep.
  split; [apply fits_read_4|].
  split; [apply Hi|].
  split; [apply fits_read_4|].
  split; [apply Hi | apply fits_read_2].
Qed.

(** [set_tuple] keeps the tuple within its C types, [pad] at seven bytes. *)
Lemma set_tuple_wf
    (K : kernel_layout) (core : bool) (m : memory) (skb : Z) (tpl : tuple) :
  tuple_wf tpl -> tuple_wf (set_tuple K core m skb tpl).
Proof.
  intros (Hs & Hd & Hsp & Hdp & Hp & Hpad).
  pose proof (set_tuple_proto_eq K core m skb tpl) as Eproto.
  pose proof (set_tuple_addrs_eq K core m skb tpl) as Eaddr.
  pose proof (set_tuple_ports_eq K core m skb tpl) as Eport.
  cbv zeta in Eaddr, Eport.
  assert (Haddr : fits 32 (tuple_saddr (set_tuple K core m skb tpl))
                  /\ fits 32 (tuple_daddr (set_tuple K core m skb tpl))
                  /\ length (tuple_pad (set_tuple K core m skb tpl)) = 7%nat).
  { destruct (ip_version K core m skb =? 4).
    - destruct Eaddr as (-> & -> & ->).
      split; [apply fits_read_4|]. split; [apply fits_read_4|].
      rewrite length_app, bpf_probe_read_length, length_skipn, Hpad.
      reflexivity.
    - destruct Eaddr as (-> & -> & ->).
      split; [assumption|]. split; assumption. }
  assert (Hport : fits 16 (tuple_sport (set_tuple K core m skb tpl))
                  /\ fits 16 (tuple_dport (set_tuple K core m skb tpl))).
  { destruct ((_ =? IPPROTO_TCP) || (_ =? IPPROTO_UDP)).
    - destruct Eport as (-> & ->). split; apply fits_read_2.
    - destruct Eport as (-> & ->). split; assumption. }
  unfold tuple_wf. rewrite Eproto.
  split; [apply Haddr|]. split; [apply Haddr|].
  split; [apply Hport|]. split; [apply Hport|].
  split; [apply fits_read_1 | apply Haddr].
Qed.

Lemma v4addr_nonzero (a : addr) : v4addr a <> 0 -> addr_pad0 a <> 0.
Proof. unfold v4addr, wrap. intros H E. rewrite E in H. apply H. reflexivity. Qed.

(** A non-zero protocol byte in the copied IPv4 header is the protocol
    [set_tuple] records. *)
Lemma set_tuple_proto_of_header
    (K : kernel_layout) (core : bool) (m : memory) (skb : Z) (tpl : tuple) :
  mem_wf m ->
  ipv4_protocol K core m skb <> 0 ->
  tuple_proto (set_tuple K core m skb tpl) = ipv4_protocol K core m skb.
Proof.
  intros Hwf Hnz. rewrite set_tuple_proto_eq.
  unfold ipv4_protocol, ipv4_header in *.
  symmetry. apply field_nonzero_ptr; try assumption.
  - apply l3_header_nonneg.
  - unfold Hdr.iphdr_protocol; lia.
  - lia.
  - cbv; lia.
Qed.

(** The tuple [set_tuple] extracts from an object [filter_l3_and_l4]
    accepted carries every configured value. *)
Lemma set_tuple_after_filter
    (K : kernel_layout) (core : bool) (m : memory) (skb : Z) (cfg : config)
    (tpl : tuple) :
  mem_wf m ->
  filter_l3_and_l4 K core m skb cfg = true ->
  let t := set_tuple K core m skb tpl in
  (v4addr (cfg_saddr cfg) <> 0 -> tuple_saddr t = v4addr (cfg_saddr cfg))
  /\ (v4addr (cfg_daddr cfg) <> 0 -> tuple_daddr t = v4addr (cfg_daddr cfg))
  /\ (cfg_l4_proto cfg <> 0 -> tuple_proto t = cfg_l4_proto cfg)
  /\ (cfg_sport cfg <> 0 -> tuple_sport t = cfg_sport cfg)
  /\ (cfg_dport cfg <> 0 -> tuple_dport t = cfg_dport cfg).
Proof.
  intros Hwf Hacc t.
  pose proof (fun Hnz => filter_l3_and_l4_accepted K core m skb cfg Hnz Hacc)
    as A.
  pose proof (set_tuple_addrs_eq K core m skb tpl) as Eaddr.
  pose proof (set_tuple_ports_eq K core m skb tpl) as Eport.
  cbv zeta in Eaddr, Eport. fold t in Eaddr, Eport.
  pose proof (l3_header_nonneg K core m skb) as Hl3.
  pose proof (l4_header_nonneg K core m skb) as Hl4.
  assert (Hports :
    cfg_sport cfg <> 0 \/ cfg_dport cfg <> 0 ->
    meets (cfg_sport cfg)
      (field 0 2 (l4_copy K core m (ipv4_protocol K core m skb) skb))
    /\ meets (cfg_dport cfg)
         (field 2 2 (l4_copy K core m (ipv4_protocol K core m skb) skb))
    /\ tuple_sport t = read_scalar m 2 (ptr_add (l4_header K core m skb) 0)
    /\ tuple_dport t = read_scalar m 2 (ptr_add (l4_header K core m skb) 2)).
  { intros Hp.
    destruct A as (_ & _ & _ & _ & Hstage);
      [unfold tuple_filter_nonzero; tauto|].
    destruct Hstage as [[Hs0 Hd0]|(Hproto & Ms & Md)]; [tauto|].
    assert (Hpnz : ipv4_protocol K core m skb <> 0)
      by (unfold IPPROTO_TCP, IPPROTO_UDP in Hproto; lia).
    unfold t in *.
    rewrite (set_tuple_proto_of_header K core m skb tpl Hwf Hpnz) in Eport.
    assert (Hb : (ipv4_protocol K core m skb =? IPPROTO_TCP)
                 || (ipv4_protocol K core m skb =? IPPROTO_UDP) = true)
      by (apply orb_true_iff; rewrite !Z.eqb_eq; exact Hproto).
    rewrite Hb in Eport. tauto. }
  assert (Hsize : forall p : Z,
            (4 <= (if (p =? IPPROTO_TCP)%Z
                   then Hdr.sizeof_tcphdr else Hdr.sizeof_udphdr))%nat)
    by (intros p; destruct (p =? IPPROTO_TCP); cbv; lia).
  repeat apply conj.
  - intros Hs.
    destruct A as (Hv & Ms & _);
      [right; left; apply v4addr_nonzero, Hs|].
    destruct Ms as [Ms|Ms]; [contradiction|].
    rewrite Hv in Eaddr. cbn [Z.eqb Pos.eqb] in Eaddr.
    destruct Eaddr as (-> & _).
    rewrite <- Ms. symmetry. unfold ipv4_header.
    apply field_nonzero_ptr; try assumption;
      [unfold Hdr.iphdr_saddr; lia | lia | cbv; lia|].
    fold (ipv4_header K core m skb). congruence.
  - intros Hd.
    destruct A as (Hv & _ & Md & _);
      [do 3 right; left; apply v4addr_nonzero, Hd|].
    destruct Md as [Md|Md]; [contradiction|].
    rewrite Hv in Eaddr. cbn [Z.eqb Pos.eqb] in Eaddr.
    destruct Eaddr as (_ & -> & _).
    rewrite <- Md. symmetry. unfold ipv4_header.
    apply field_nonzero_ptr; try assumption;
      [unfold Hdr.iphdr_daddr; lia | lia | cbv; lia|].
    fold (ipv4_header K core m skb). congruence.
  - intros Hp.
    destruct A as (_ & _ & _ & Mp & _); [left; exact Hp|].
    destruct Mp as [Mp|Mp]; [contradiction|].
    subst t. rewrite set_tuple_proto_of_header; [exact Mp | exact Hwf|].
    congruence.
  - intros Hs.
    destruct (Hports (or_introl Hs)) as (Ms & _ & -> & _).
    destruct Ms as [Ms|Ms]; [contradiction|].
    rewrite <- Ms. symmetry. unfold l4_copy.
    apply field_nonzero_ptr; try assumption; try lia.
    + specialize (Hsize (ipv4_protocol K core m skb)). cbn. lia.
    + fold (l4_copy K core m (ipv4_protocol K core m skb) skb). congruence.
  - intros Hd.
    destruct (Hports (or_intror Hd)) as (_ & Md & _ & ->).
    destruct Md as [Md|Md]; [contradiction|].
    rewrite <- Md. symmetry. unfold l4_copy.
    apply field_nonzero_ptr; try assumption; try lia.
    + specialize (Hsize (ipv4_protocol K core m skb)). cbn. lia.
    + fold (l4_copy K core m (ipv4_protocol K core m skb) skb). congruence.
Qed.

(** ** More on the dump ring *)

Lemma length_list_set {A} (l : list A) :
  forall i x, length (list_set l i x) = length l.
Proof.
  induction l as [|a r IH]; intros [|i] x; cbn; try reflexivity.
  f_equal. apply IH.
Qed.

Lemma nth_error_list_set_other {A} (l : list A) :
  forall i j x, i <> j -> nth_error (list_set l i x) j = nth_error l j.
Proof.
  induction l as [|a r IH]; intros [|i] [|j] x Hne; cbn; try reflexivity.
  - congruence.
  - apply IH. congruence.
Qed.

Lemma wrap64_mod_256 (x : Z) : wrap 64 x mod 256 = x mod 256.
Proof.
  unfold wrap. apply Z.mod_mod_divide.
  exists (2 ^ 56). reflexivity.
Qed.

(** X7.  Whatever the build and whatever the formatter answers, a call of
    [set_skb_btf] leaves the events channel alone, keeps the dump map at
    its size, changes no slot but the one the counter selects, and turns an
    event id below 256 into an event id below 256.  In a build without the
    dump ring it does nothing at all. *)
Theorem set_skb_btf_frame
    (OUTPUT_SKB : bool) (E : helpers) (skb eid : Z) (st : state) :
  let r := set_skb_btf OUTPUT_SKB E skb eid st in
  events (fst r) = events st
  /\ length (print_skb_map (fst r)) = length (print_skb_map st)
  /\ (forall i, i <> Z.to_nat (print_skb_id st mod 256) ->
      nth_error (print_skb_map (fst r)) i = nth_error (print_skb_map st) i)
  /\ (0 <= eid < 256 -> 0 <= snd r < 256)
  /\ (OUTPUT_SKB = false -> r = (st, eid)).
Proof.
  cbv zeta. unfold set_skb_btf.
  destruct OUTPUT_SKB; [|cbn; repeat split; auto; lia].
  unfold fetch_and_add_print_skb_id. cbn [print_skb_map].
  rewrite dump_slot_key.
  pose proof (Z.mod_pos_bound (print_skb_id st) 256 ltac:(lia)) as Hslot.
  destruct (nth_error (print_skb_map st) (Z.to_nat (print_skb_id st mod 256)))
    as [buf|].
  - destruct (bpf_snprintf_btf E skb buf) as [rc str'].
    unfold write_print_skb_map.
    destruct (rc <? 0); cbn [fst snd events print_skb_map];
      rewrite length_list_set;
      (repeat split; try reflexivity; try lia;
       try (intros i Hi; apply nth_error_list_set_other; congruence);
       try discriminate).
  - cbn [fst snd events print_skb_map].
    repeat split; try reflexivity; try lia; discriminate.
Qed.

(** A call that finds its slot and whose rendering succeeds. *)
Lemma set_skb_btf_success (E : helpers) (skb eid : Z) (st : state) :
  (forall buf, 0 <= fst (bpf_snprintf_btf E skb buf)) ->
  length (print_skb_map st) = 256%nat ->
  snd (set_skb_btf true E skb eid st) = print_skb_id st mod 256
  /\ print_skb_id (fst (set_skb_btf true E skb eid st))
     = wrap 64 (print_skb_id st + 1)
  /\ length (print_skb_map (fst (set_skb_btf true E skb eid st))) = 256%nat.
Proof.
  intros Hok Hlen.
  destruct (dump_slot_in_map (print_skb_id st) _ Hlen) as [buf Hbuf].
  unfold set_skb_btf, fetch_and_add_print_skb_id.
  cbn [print_skb_map]. rewrite dump_slot_key, Hbuf.
  specialize (Hok buf).
  destruct (bpf_snprintf_btf E skb buf) as [rc str']. cbn [fst] in Hok.
  destruct (Z.ltb_spec rc 0) as [Hneg|_]; [lia|].
  unfold write_print_skb_map. cbn [fst snd print_skb_id print_skb_map].
  rewrite length_list_set. auto.
Qed.

(** X8.  Successive dump calls whose rendering succeeds hand out the slots
    in rotation: the k-th call after the counter stood at [c] gets slot
    [(c + k) mod 256], also across the wrap of the 64-bit counter, and the
    counter ends at [c] plus the number of calls, modulo [2^64]. *)
Theorem dump_calls_rotate (E : helpers) (skbs : list Z) (st : state) :
  (forall skb buf, 0 <= fst (bpf_snprintf_btf E skb buf)) ->
  length (print_skb_map st) = 256%nat ->
  fits 64 (print_skb_id st) ->
  fst (dump_calls E skbs st)
  = map (fun k => (print_skb_id st + Z.of_nat k) mod 256)
        (seq 0 (length skbs))
  /\ print_skb_id (snd (dump_calls E skbs st))
     = wrap 64 (print_skb_id st + Z.of_nat (length skbs))
  /\ length (print_skb_map (snd (dump_calls E skbs st))) = 256%nat.
Proof.
  intros Hok. revert st.
  induction skbs as [|skb rest IH]; intros st Hlen Hfit.
  - cbn [dump_calls fst snd length seq map].
    rewrite Z.add_0_r. unfold wrap. unfold fits in Hfit.
    rewrite Z.mod_small by assumption. auto.
  - cbn [dump_calls].
    destruct (set_skb_btf_success E skb 0 st (Hok skb) Hlen)
      as (Hid & Hcnt & Hlen1).
    destruct (set_skb_btf true E skb 0 st) as [st1 id].
    cbn [fst snd] in Hid, Hcnt, Hlen1.
    assert (Hfit1 : fits 64 (print_skb_id st1)).
    { rewrite Hcnt. unfold fits, wrap. apply Z.mod_pos_bound. lia. }
    destruct (IH st1 Hlen1 Hfit1) as (Hids & Hc & Hl).
    destruct (dump_calls E rest st1) as [ids st2].
    cbn [fst snd] in *.
    split; [|split; [|exact Hl]].
    + cbn [length seq map]. rewrite Z.add_0_r, Hid. f_equal.
      rewrite Hids, <- seq_shift, map_map.
      apply map_ext. intros k. rewrite Hcnt.
      rewrite Z.add_mod, wrap64_mod_256, <- Z.add_mod by lia.
      f_equal. lia.
    + rewrite Hc, Hcnt. unfold wrap.
      rewrite Zplus_mod_idemp_l. f_equal. cbn [length]. lia.
Qed.

Lemma dump_calls_rotate_witness :
  fits 64 (print_skb_id Sample2.st_last)
  /\ fst (dump_calls (Sample.env Sample.mem_ipv4_tcp None)
            [Sample.skb; Sample.skb; Sample.skb] Sample2.st_last)
     = [255; 0; 1].
Proof.
  assert (Hfit : fits 64 (print_skb_id Sample2.st_last))
    by (unfold fits; cbn; lia).
  split; [exact Hfit|].
  destruct (dump_calls_rotate (Sample.env Sample.mem_ipv4_tcp None)
              [Sample.skb; Sample.skb; Sample.skb] Sample2.st_last)
    as (-> & _).
  - intros skb buf; cbn; lia.
  - reflexivity.
  - exact Hfit.
  - vm_compute; reflexivity.
Defined.

(** ** More on the handler *)

(** What a call of [set_skb_btf] keeps, for the handler's invariants. *)
Lemma set_skb_btf_keeps
    (OUTPUT_SKB : bool) (E : helpers) (skb eid : Z) (st : state) :
  events (fst (set_skb_btf OUTPUT_SKB E skb eid st)) = events st
  /\ length (print_skb_map (fst (set_skb_btf OUTPUT_SKB E skb eid st)))
     = length (print_skb_map st)
  /\ (0 <= eid < 256 -> 0 <= snd (set_skb_btf OUTPUT_SKB E skb eid st) < 256)
  /\ (OUTPUT_SKB = false -> set_skb_btf OUTPUT_SKB E skb eid st = (st, eid)).
Proof.
  unfold set_skb_btf.
  destruct OUTPUT_SKB; [|cbn; auto].
  unfold fetch_and_add_print_skb_id. cbn [print_skb_map].
  pose proof (Z.mod_pos_bound (print_skb_id st) 256 ltac:(lia)) as Hslot.
  destruct (nth_error _ _) as [buf|].
  - destruct (bpf_snprintf_btf E skb buf) as [rc str'].
    unfold write_print_skb_map.
    destruct (rc <? 0); cbn [fst snd events print_skb_map];
      rewrite length_list_set; repeat split; auto; try lia; discriminate.
  - cbn [fst snd events print_skb_map].
    repeat split; auto; try lia; discriminate.
Qed.

(** The accepting path of [handle_everything], in one expression. *)
Lemma handle_everything_accepted_eq
    (K : kernel_layout) (core OUTPUT_SKB : bool) (E : helpers)
    (skb : Z) (ctx : pt_regs) (st : state) (cfg : config) :
  cfg_map_lookup E = Some cfg ->
  filter K core (kmem E) skb cfg = true ->
  handle_everything K core OUTPUT_SKB E skb ctx st =
    (0,
     bpf_perf_event_output
       {| ev_pid := wrap 32 (bpf_get_current_pid_tgid E);
          ev_type := 0;
          ev_addr := PT_REGS_IP ctx;
          ev_skb_addr := skb;
          ev_ts := bpf_ktime_get_ns E;
          ev_print_skb_id :=
            snd (if truthy (cfg_output_skb cfg)
                 then set_skb_btf OUTPUT_SKB E skb 0 st else (st, 0));
          ev_meta :=
            if truthy (cfg_output_meta cfg)
            then set_meta K core (kmem E) skb skb_meta_zero
            else skb_meta_zero;
          ev_tuple :=
            if truthy (cfg_output_tuple cfg)
            then set_tuple K core (kmem E) skb tuple_zero
            else tuple_zero;
          ev_print_stack_id :=
            if truthy (cfg_output_stack cfg)
            then bpf_get_stackid E ctx else 0 |}
       (fst (if truthy (cfg_output_skb cfg)
             then set_skb_btf OUTPUT_SKB E skb 0 st else (st, 0)))).
Proof.
  intros Hcfg Hacc.
  unfold handle_everything. rewrite Hcfg, Hacc. cbn [negb].
  unfold set_output, stamp_and_emit.
  destruct (truthy (cfg_output_meta cfg)), (truthy (cfg_output_tuple cfg)),
    (truthy (cfg_output_skb cfg)), (truthy (cfg_output_stack cfg));
    cbn [ev_meta ev_tuple ev_print_skb_id event_zero set_ev_meta set_ev_tuple];
    try destruct (set_skb_btf OUTPUT_SKB E skb 0 st) as [st1 id];
    reflexivity.
Qed.

(** An invocation that put an event on the channel either found no
    configuration or found one whose filter accepted the object. *)
Lemma handle_everything_emitted
    (K : kernel_layout) (core OUTPUT_SKB : bool) (E : helpers)
    (skb : Z) (ctx : pt_regs) (st : state) (e : event_t) :
  events (snd (handle_everything K core OUTPUT_SKB E skb ctx st))
  = events st ++ [e] ->
  cfg_map_lookup E = None
  \/ exists cfg, cfg_map_lookup E = Some cfg
                 /\ filter K core (kmem E) skb cfg = true.
Proof.
  intros He.
  destruct (cfg_map_lookup E) as [cfg|] eqn:Hcfg; [right|left; reflexivity].
  exists cfg. split; [reflexivity|].
  destruct (filter K core (kmem E) skb cfg) eqn:Hf; [reflexivity|].
  unfold handle_everything in He. rewrite Hcfg, Hf in He.
  cbn [negb snd] in He.
  apply (f_equal (@length _)) in He. rewrite length_app in He.
  cbn [length] in He. lia.
Qed.

(** X9.  When a configuration is present and [filter] accepts, the handler
    puts exactly one event on the channel.  Process id, probe address,
    object address and time are stamped whatever the configuration says
    (the [output_timestamp] flag is not consulted) and [type] stays zero.
    Metadata, tuple, stack id and dump id are produced by their extractor
    when their flag is set and are zero otherwise; the dump ring is touched
    only through [set_skb_btf], when [output_skb] is set. *)
Theorem handle_everything_accepted
    (K : kernel_layout) (core OUTPUT_SKB : bool) (E : helpers)
    (skb : Z) (ctx : pt_regs) (st : state) (cfg : config) :
  cfg_map_lookup E = Some cfg ->
  filter K core (kmem E) skb cfg = true ->
  exists (e : event_t) (st1 : state),
    handle_everything K core OUTPUT_SKB E skb ctx st =
      (0, {| print_skb_id := print_skb_id st1;
             print_skb_map := print_skb_map st1;
             events := events st ++ [e] |})
    /\ ev_pid e = wrap 32 (bpf_get_current_pid_tgid E)
    /\ ev_type e = 0
    /\ ev_addr e = PT_REGS_IP ctx
    /\ ev_skb_addr e = skb
    /\ ev_ts e = bpf_ktime_get_ns E
    /\ ev_meta e = (if cfg_output_meta cfg =? 0 then skb_meta_zero
                    else set_meta K core (kmem E) skb skb_meta_zero)
    /\ ev_tuple e = (if cfg_output_tuple cfg =? 0 then tuple_zero
                     else set_tuple K core (kmem E) skb tuple_zero)
    /\ ev_print_stack_id e = (if cfg_output_stack cfg =? 0 then 0
                              else bpf_get_stackid E ctx)
    /\ (st1, ev_print_skb_id e)
       = (if cfg_output_skb cfg =? 0 then (st, 0)
          else set_skb_btf OUTPUT_SKB E skb 0 st).
Proof.
  intros Hcfg Hacc.
  rewrite (handle_everything_accepted_eq K core OUTPUT_SKB E skb ctx st cfg
             Hcfg Hacc).
  unfold truthy.
  set (dump := if negb (cfg_output_skb cfg =? 0)
               then set_skb_btf OUTPUT_SKB E skb 0 st else (st, 0)).
  assert (Hev : events (fst dump) = events st).
  { subst dump. destruct (cfg_output_skb cfg =? 0); cbn [negb];
      [reflexivity | apply set_skb_btf_keeps]. }
  eexists. exists (fst dump).
  unfold bpf_perf_event_output. rewrite Hev.
  split; [reflexivity|].
  cbn [ev_pid ev_type ev_addr ev_skb_addr ev_ts ev_meta ev_tuple
       ev_print_stack_id ev_print_skb_id].
  repeat split;
    try (match goal with
         | |- (if negb (?x =? 0) then _ else _) = _ => destruct (x =? 0)
         end; reflexivity).
  subst dump. destruct (cfg_output_skb cfg =? 0); cbn [negb].
  - reflexivity.
  - destruct (set_skb_btf OUTPUT_SKB E skb 0 st); reflexivity.
Qed.

Lemma handle_everything_accepted_witness :
  filter Sample.layout false Sample.mem_ipv4_tcp Sample.skb Sample2.cfg_full
  = true
  /\ length (events (snd (handle_everything Sample.layout false true
                            (Sample.env Sample.mem_ipv4_tcp
                               (Some Sample2.cfg_full))
                            Sample.skb (Sample.regs Sample.skb 0)
                            (Sample.st0 3)))) = 1%nat.
Proof.
  assert (Hacc : filter Sample.layout false Sample.mem_ipv4_tcp Sample.skb
                   Sample2.cfg_full = true) by (vm_compute; reflexivity).
  split; [exact Hacc|].
  destruct (handle_everything_accepted Sample.layout false true
              (Sample.env Sample.mem_ipv4_tcp (Some Sample2.cfg_full))
              Sample.skb (Sample.regs Sample.skb 0) (Sample.st0 3)
              Sample2.cfg_full eq_refl Hacc) as (e & st1 & -> & _).
  reflexivity.
Defined.

(** X10.  A configuration that filters on nothing and asks for no output
    (as a zeroed map entry is) makes the handler behave as if there were no
    configuration: every object yields the one minimal event and the dump
    ring is left alone. *)
Theorem handle_everything_plain_config
    (K : kernel_layout) (core OUTPUT_SKB : bool) (E : helpers)
    (skb : Z) (ctx : pt_regs) (st : state) (cfg : config) :
  cfg_map_lookup E = Some cfg ->
  plain_config cfg ->
  handle_everything K core OUTPUT_SKB E skb ctx st
  = handle_everything K core OUTPUT_SKB (with_config None E) skb ctx st.
Proof.
  intros Hcfg (Hmark & Htuple & Hm & Ht & Hs & Hk).
  assert (Hacc : filter K core (kmem E) skb cfg = true).
  { unfold filter, filter_mark. rewrite Hmark. cbn [truthy Z.eqb negb andb].
    destruct Htuple as (Hp & Hs0 & Hs1 & Hd0 & Hd1 & Hsp & Hdp).
    unfold filter_l3_and_l4. rewrite Hp, Hs0, Hs1, Hd0, Hd1, Hsp, Hdp.
    reflexivity. }
  rewrite (handle_everything_accepted_eq K core OUTPUT_SKB E skb ctx st cfg
             Hcfg Hacc).
  rewrite Hm, Ht, Hs, Hk. reflexivity.
Qed.

Lemma handle_everything_plain_config_witness :
  plain_config (Sample.cfg 0 0 0 0 0)
  /\ handle_everything Sample.layout false true
       (Sample.env Sample.mem_ipv6_tcp (Some (Sample.cfg 0 0 0 0 0)))
       Sample.skb (Sample.regs Sample.skb 0) (Sample.st0 3)
     = handle_everything Sample.layout false true
         (Sample.env Sample.mem_ipv6_tcp None)
         Sample.skb (Sample.regs Sample.skb 0) (Sample.st0 3).
Proof.
  assert (Hp : plain_config (Sample.cfg 0 0 0 0 0))
    by (repeat split; reflexivity).
  split; [exact Hp|].
  exact (handle_everything_plain_config Sample.layout false true
           (Sample.env Sample.mem_ipv6_tcp (Some (Sample.cfg 0 0 0 0 0)))
           Sample.skb (Sample.regs Sample.skb 0) (Sample.st0 3) _
           eq_refl Hp).
Defined.

(** X11.  The handler reads neither [ipv6] nor [output_timestamp] nor
    [pad] of the configuration: changing them changes neither the verdict
    nor the event nor the state. *)
Theorem handle_everything_unread_fields
    (K : kernel_layout) (core OUTPUT_SKB : bool) (E : helpers)
    (skb : Z) (ctx : pt_regs) (st : state) (cfg : config)
    (ipv6 output_timestamp pad : Z) :
  handle_everything K core OUTPUT_SKB
    (with_config (Some (with_unread_fields ipv6 output_timestamp pad cfg)) E)
    skb ctx st
  = handle_everything K core OUTPUT_SKB (with_config (Some cfg) E) skb ctx st.
Proof.
  unfold handle_everything. cbn [cfg_map_lookup with_config kmem].
  assert (Hf : filter K core (kmem E) skb
                 (with_unread_fields ipv6 output_timestamp pad cfg)
               = filter K core (kmem E) skb cfg) by reflexivity.
  rewrite Hf.
  destruct (filter K core (kmem E) skb cfg); cbn [negb]; reflexivity.
Qed.

(** X12.  Every invocation returns 0, keeps the events already on the
    channel and adds at most one behind them, and keeps the dump map at its
    size; in a build without the dump ring the counter and the map are not
    touched at all. *)
Theorem handle_everything_invariants
    (K : kernel_layout) (core OUTPUT_SKB : bool) (E : helpers)
    (skb : Z) (ctx : pt_regs) (st : state) :
  let r := handle_everything K core OUTPUT_SKB E skb ctx st in
  fst r = 0
  /\ (events (snd r) = events st \/ exists e, events (snd r) = events st ++ [e])
  /\ length (print_skb_map (snd r)) = length (print_skb_map st)
  /\ (OUTPUT_SKB = false ->
      print_skb_id (snd r) = print_skb_id st
      /\ print_skb_map (snd r) = print_skb_map st).
Proof.
  cbv zeta.
  destruct (cfg_map_lookup E) as [cfg|] eqn:Hcfg.
  - destruct (filter K core (kmem E) skb cfg) eqn:Hf.
    + rewrite (handle_everything_accepted_eq K core OUTPUT_SKB E skb ctx st
                 cfg Hcfg Hf).
      set (dump := if truthy (cfg_output_skb cfg)
                   then set_skb_btf OUTPUT_SKB E skb 0 st else (st, 0)).
      assert (Hd : events (fst dump) = events st
                   /\ length (print_skb_map (fst dump))
                      = length (print_skb_map st)
                   /\ (OUTPUT_SKB = false -> fst dump = st)).
      { subst dump. destruct (truthy (cfg_output_skb cfg)).
        - destruct (set_skb_btf_keeps OUTPUT_SKB E skb 0 st)
            as (He & Hl & _ & Hoff).
          repeat split; try assumption.
          intros Ho. rewrite (Hoff Ho). reflexivity.
        - repeat split; reflexivity. }
      destruct Hd as (He & Hl & Hoff).
      unfold bpf_perf_event_output.
      cbn [fst snd events print_skb_map print_skb_id]. rewrite He.
      split; [reflexivity|]. split; [right; eauto|]. split; [exact Hl|].
      intros Ho. rewrite (Hoff Ho). split; reflexivity.
    + unfold handle_everything. rewrite Hcfg, Hf. cbn [negb fst snd].
      repeat split; auto.
  - unfold handle_everything, stamp_and_emit, bpf_perf_event_output.
    rewrite Hcfg. cbn [fst snd events print_skb_map print_skb_id].
    split; [reflexivity|]. split; [right; eauto|].
    repeat split; reflexivity.
Qed.

Lemma skb_meta_zero_wf : skb_meta_wf skb_meta_zero.
Proof. unfold skb_meta_wf, fits; cbn; lia. Qed.

Lemma tuple_zero_wf : tuple_wf tuple_zero.
Proof. unfold tuple_wf, fits; cbn; repeat split; try lia. Qed.

(** X13.  Every event the handler puts on the channel fits the wire
    record: the process id is 32 bits wide, [type] is zero, the dump id
    indexes the 256-slot pool, every metadata field and every tuple field
    is within its C type and the tuple's [pad] has its seven bytes; and it
    carries the probe address, the object address and the time of this
    invocation. *)
Theorem handle_everything_event_wf
    (K : kernel_layout) (core OUTPUT_SKB : bool) (E : helpers)
    (skb : Z) (ctx : pt_regs) (st : state) (e : event_t) :
  events (snd (handle_everything K core OUTPUT_SKB E skb ctx st))
  = events st ++ [e] ->
  fits 32 (ev_pid e)
  /\ ev_type e = 0
  /\ ev_addr e = PT_REGS_IP ctx
  /\ ev_skb_addr e = skb
  /\ ev_ts e = bpf_ktime_get_ns E
  /\ 0 <= ev_print_skb_id e < 256
  /\ skb_meta_wf (ev_meta e)
  /\ tuple_wf (ev_tuple e).
Proof.
  intros He.
  assert (Hpid : fits 32 (wrap 32 (bpf_get_current_pid_tgid E)))
    by (unfold fits, wrap; apply Z.mod_pos_bound; lia).
  destruct (handle_everything_emitted K core OUTPUT_SKB E skb ctx st e He)
    as [Hcfg|(cfg & Hcfg & Hacc)].
  - unfold handle_everything, stamp_and_emit, bpf_perf_event_output in He.
    rewrite Hcfg in He. cbn [snd events] in He.
    apply app_inv_head in He. injection He as <-.
    cbn [ev_pid ev_type ev_addr ev_skb_addr ev_ts ev_print_skb_id ev_meta
         ev_tuple event_zero].
    split; [exact Hpid|].
    repeat (split; [reflexivity|]).
    split; [lia|]. split; [apply skb_meta_zero_wf | apply tuple_zero_wf].
  - rewrite (handle_everything_accepted_eq K core OUTPUT_SKB E skb ctx st cfg
               Hcfg Hacc) in He.
    unfold bpf_perf_event_output in He. cbn [snd events] in He.
    assert (Hev : events (fst (if truthy (cfg_output_skb cfg)
                               then set_skb_btf OUTPUT_SKB E skb 0 st
                               else (st, 0))) = events st).
    { destruct (truthy (cfg_output_skb cfg));
        [apply set_skb_btf_keeps | reflexivity]. }
    rewrite Hev in He.
    apply app_inv_head in He. injection He as <-.
    cbn [ev_pid ev_type ev_addr ev_skb_addr ev_ts ev_print_skb_id ev_meta
         ev_tuple].
    split; [exact Hpid|].
    repeat (split; [reflexivity|]).
    split; [|split].
    + destruct (truthy (cfg_output_skb cfg)); [|cbn; lia].
      apply set_skb_btf_keeps. lia.
    + destruct (truthy (cfg_output_meta cfg));
        [apply set_meta_wf|]; apply skb_meta_zero_wf.
    + destruct (truthy (cfg_output_tuple cfg));
        [apply set_tuple_wf|]; apply tuple_zero_wf.
Qed.

Lemma handle_everything_event_wf_witness :
  exists e,
    events (snd (handle_everything Sample.layout false true
                   (Sample.env Sample.mem_ipv4_tcp (Some Sample2.cfg_full))
                   Sample.skb (Sample.regs Sample.skb 0) Sample2.st_last))
    = events Sample2.st_last ++ [e]
    /\ ev_print_skb_id e = 255
    /\ tuple_wf (ev_tuple e).
Proof.
  eexists. split; [vm_compute; reflexivity|].
  split; [reflexivity|].
  eapply (handle_everything_event_wf Sample.layout false true
            (Sample.env Sample.mem_ipv4_tcp (Some Sample2.cfg_full))
            Sample.skb (Sample.regs Sample.skb 0) Sample2.st_last).
  vm_compute; reflexivity.
Defined.

(** X14.  What the filter checked is what the event reports.  For every
    event emitted under a configuration, in a memory confined to the 64-bit
    address space: if metadata is asked for and a mark is configured, the
    event's mark is that mark; if the tuple is asked for, its source and
    destination address, protocol and ports equal each configured
    (non-zero) value. *)
Theorem handle_everything_event_matches_filter
    (K : kernel_layout) (core OUTPUT_SKB : bool) (E : helpers)
    (skb : Z) (ctx : pt_regs) (st : state) (cfg : config) (e : event_t) :
  cfg_map_lookup E = Some cfg ->
  mem_wf (kmem E) ->
  events (snd (handle_everything K core OUTPUT_SKB E skb ctx st))
  = events st ++ [e] ->
  (cfg_output_meta cfg <> 0 -> cfg_mark cfg <> 0 ->
   meta_mark (ev_meta e) = cfg_mark cfg)
  /\ (cfg_output_tuple cfg <> 0 ->
      (v4addr (cfg_saddr cfg) <> 0 ->
       tuple_saddr (ev_tuple e) = v4addr (cfg_saddr cfg))
      /\ (v4addr (cfg_daddr cfg) <> 0 ->
          tuple_daddr (ev_tuple e) = v4addr (cfg_daddr cfg))
      /\ (cfg_l4_proto cfg <> 0 -> tuple_proto (ev_tuple e) = cfg_l4_proto cfg)
      /\ (cfg_sport cfg <> 0 -> tuple_sport (ev_tuple e) = cfg_sport cfg)
      /\ (cfg_dport cfg <> 0 -> tuple_dport (ev_tuple e) = cfg_dport cfg)).
Proof.
  intros Hcfg Hwf He.
  destruct (handle_everything_emitted K core OUTPUT_SKB E skb ctx st e He)
    as [Hnone|(cfg' & Hcfg' & Hacc)]; [congruence|].
  assert (cfg' = cfg) by congruence. subst cfg'.
  rewrite (handle_everything_accepted_eq K core OUTPUT_SKB E skb ctx st cfg
             Hcfg Hacc) in He.
  unfold bpf_perf_event_output in He. cbn [snd events] in He.
  assert (Hev : events (fst (if truthy (cfg_output_skb cfg)
                             then set_skb_btf OUTPUT_SKB E skb 0 st
                             else (st, 0))) = events st).
  { destruct (truthy (cfg_output_skb cfg));
      [apply set_skb_btf_keeps | reflexivity]. }
  rewrite Hev in He.
  apply app_inv_head in He. injection He as <-.
  cbn [ev_meta ev_tuple].
  unfold filter in Hacc. apply andb_true_iff in Hacc.
  destruct Hacc as [Hmark Htuple].
  split.
  - intros Hflag Hm.
    apply truthy_true in Hflag. rewrite Hflag.
    destruct (set_meta_direct_fields K core (kmem E) skb skb_meta_zero)
      as (-> & _).
    unfold filter_mark in Hmark.
    apply truthy_true in Hm. rewrite Hm in Hmark.
    rewrite skb_field_eq in Hmark. apply Z.eqb_eq in Hmark. exact Hmark.
  - intros Hflag.
    apply truthy_true in Hflag. rewrite Hflag.
    exact (set_tuple_after_filter K core (kmem E) skb cfg tuple_zero
             Hwf Htuple).
Qed.

Lemma handle_everything_event_matches_filter_witness :
  mem_wf Sample.mem_ipv4_tcp
  /\ exists e,
       events (snd (handle_everything Sample.layout false true
                      (Sample.env Sample.mem_ipv4_tcp (Some Sample2.cfg_full))
                      Sample.skb (Sample.regs Sample.skb 0) (Sample.st0 0)))
       = events (Sample.st0 0) ++ [e]
       /\ tuple_dport (ev_tuple e) = Sample.port_443.
Proof.
  assert (Hwf : mem_wf Sample.mem_ipv4_tcp)
    by (apply (mem_of_wf Sample2.regions_ipv4_tcp); vm_compute; reflexivity).
  split; [exact Hwf|].
  eexists. split; [vm_compute; reflexivity|].
  eapply (handle_everything_event_matches_filter Sample.layout false true
            (Sample.env Sample.mem_ipv4_tcp (Some Sample2.cfg_full))
            Sample.skb (Sample.regs Sample.skb 0) (Sample.st0 0)
            Sample2.cfg_full _ eq_refl Hwf).
  - vm_compute; reflexivity.
  - cbn; discriminate.
  - cbn; discriminate.
Defined.
